(** * AI Shop Assistant worker: a shallow embedding of [src/worker/index.js]

    The worker is a request router in front of three remote services: the
    GitHub contents API (the prompt store), the Gemini completion API and
    the Telegram bot API.  This development embeds

    - the prompt rendering step of [callGeminiApi] (a chain of six global
      [String.prototype.replace] calls),
    - the handlers [handleChat], [handleSavePrompts] and
      [handleTelegramWebhook] as programs in a small effect monad whose
      only effect is [fetch], recorded in a trace,
    - the router, the [fetch] method of the module's default export,

    and states the properties of the specification against them.

    Strings are kept as byte strings in UTF-8.  Every pattern the worker
    matches is ASCII, and an ASCII byte never occurs inside a multi-byte
    UTF-8 sequence, so matching on bytes agrees with matching on UTF-16
    code units for every well-formed string. *)

From Stdlib Require Import String Ascii List Bool ZArith Lia.
From Stdlib Require Import DecimalString.
Import ListNotations.
Open Scope string_scope.

Set Implicit Arguments.
Set Warnings "-register-all".

(** ** Strings *)

Module Str.

(** [s.startsWith(p)]: the test the regular expression engine performs
    at one position for a pattern made of literal characters only. *)
Fixpoint starts_with (p s : string) : bool :=
  match p with
  | EmptyString => true
  | String a p' =>
      match s with
      | EmptyString => false
      | String b s' => if Ascii.eqb a b then starts_with p' s' else false
      end
  end.

(** [p] occurs in [s] at some position. *)
Fixpoint occurs (p s : string) : bool :=
  starts_with p s ||
  match s with
  | EmptyString => false
  | String _ s' => occurs p s'
  end.

(** The character [c] occurs in [s]. *)
Fixpoint mem (c : ascii) (s : string) : bool :=
  match s with
  | EmptyString => false
  | String b s' => Ascii.eqb c b || mem c s'
  end.

Fixpoint drop (n : nat) (s : string) : string :=
  match n with
  | O => s
  | S k => match s with
           | EmptyString => EmptyString
           | String _ s' => drop k s'
           end
  end.

(** One of the two strings is a prefix of the other. *)
Definition comparable (a b : string) : bool :=
  starts_with a b || starts_with b a.

(** An occurrence of [a] may begin inside an occurrence of [b]: some
    non-empty end of [b] is comparable with [a].  (When it is not,
    then in no text an occurrence of [a] begins at a position that an
    occurrence of [b] covers.) *)
Fixpoint collides (a b : string) : bool :=
  match b with
  | EmptyString => false
  | String _ b' => comparable a b || collides a b'
  end.

(** Occurrences of [a] and of [b] may share a position of a text. *)
Definition overlaps (a b : string) : bool :=
  collides a b || collides b a.

End Str.

(** ** [String.prototype.replace] with a global literal pattern *)

Module Replace.

Definition dollar : ascii := "$"%char.

(** [GetSubstitution(matched, str, position, captures = [], undefined,
    replacement)] of ECMA-262 for a pattern without capture groups.
    [before] is [str] up to [position], [after] is [str] from the end of
    the match.  [$$] gives a dollar sign, [$&] the matched text, [$`]
    the text before the match and [$'] the text after it; with no
    capture group [$n] and [$<] stay as they are written. *)
Fixpoint get_substitution (matched before after replacement : string)
  : string :=
  match replacement with
  | EmptyString => EmptyString
  | String c rest =>
      if Ascii.eqb c dollar then
        match rest with
        | EmptyString => String c EmptyString
        | String d rest' =>
            if Ascii.eqb d dollar then
              String dollar (get_substitution matched before after rest')
            else if Ascii.eqb d "&"%char then
              matched ++ get_substitution matched before after rest'
            else if Ascii.eqb d "`"%char then
              before ++ get_substitution matched before after rest'
            else if Ascii.eqb d "'"%char then
              after ++ get_substitution matched before after rest'
            else
              String c (get_substitution matched before after rest)
        end
      else String c (get_substitution matched before after rest)
  end.

(** The scan of [str.replace(/p/g, v)] for a non-empty literal [p].
    [skip] counts the characters of the current match still to be
    passed over (the engine resumes at the end of a match, so matches
    never overlap); [before] is the part of the original string already
    scanned. *)
Fixpoint scan (p v : string) (skip : nat) (before s : string) : string :=
  match s with
  | EmptyString => EmptyString
  | String c s' =>
      match skip with
      | S k => scan p v k (before ++ String c EmptyString) s'
      | O =>
          if Str.starts_with p s then
            get_substitution p before (Str.drop (String.length p) s) v
              ++ scan p v (String.length p - 1)
                   (before ++ String c EmptyString) s'
          else
            String c (scan p v 0 (before ++ String c EmptyString) s')
      end
  end.

(** [s.replace(/p/g, v)] *)
Definition replace_all (p v s : string) : string :=
  scan p v 0 EmptyString s.

End Replace.

(** ** The rendering step of [callGeminiApi] *)

Module Template.

Definition ph_user_preferences   : string := "{{user_preferences}}".
Definition ph_product_data       : string := "{{product_data}}".
Definition ph_size_chart         : string := "{{size_chart}}".
Definition ph_user_measurements  : string := "{{user_measurements}}".
Definition ph_order_number       : string := "{{order_number}}".
Definition ph_order_status_data  : string := "{{order_status_data}}".

Definition val_product_data      : string := "данные о товарах".
Definition val_size_chart        : string := "таблица размеров".
Definition val_order_status_data : string := "статус заказа".

(** The fixed mapping of [callGeminiApi], in the order of the chain. *)
Definition context (userMessage : string) : list (string * string) :=
  [ (ph_user_preferences,  userMessage);
    (ph_product_data,      val_product_data);
    (ph_size_chart,        val_size_chart);
    (ph_user_measurements, userMessage);
    (ph_order_number,      userMessage);
    (ph_order_status_data, val_order_status_data) ].

Definition recognized : list string := map fst (context EmptyString).

(** The values of the context that do not come from the request. *)
Definition constants : list string :=
  [val_product_data; val_size_chart; val_order_status_data].

(** [finalPrompt] of [callGeminiApi]: the six replacements, one after
    the other, each over the whole result of the one before. *)
Definition render (promptTemplate userMessage : string) : string :=
  Replace.replace_all ph_order_status_data val_order_status_data
    (Replace.replace_all ph_order_number userMessage
      (Replace.replace_all ph_user_measurements userMessage
        (Replace.replace_all ph_size_chart val_size_chart
          (Replace.replace_all ph_product_data val_product_data
            (Replace.replace_all ph_user_preferences userMessage
               promptTemplate))))).

(** The first entry of the context whose placeholder is at the head
    of [s]. *)
Fixpoint lookup_prefix (ctx : list (string * string)) (s : string)
  : option (string * string) :=
  match ctx with
  | [] => None
  | (p, v) :: ctx' =>
      if Str.starts_with p s then Some (p, v) else lookup_prefix ctx' s
  end.

(** The rendering in the words of the specification: one pass over
    the template, in which every occurrence of a placeholder of the
    context is replaced by its value, the value is not scanned again,
    and every other character is copied.  [skip] plays the same role
    as in [Replace.scan]. *)
Fixpoint one_pass (ctx : list (string * string)) (skip : nat) (s : string)
  : string :=
  match s with
  | EmptyString => EmptyString
  | String c s' =>
      match skip with
      | S k => one_pass ctx k s'
      | O =>
          match lookup_prefix ctx s with
          | Some (p, v) => v ++ one_pass ctx (String.length p - 1) s'
          | None => String c (one_pass ctx 0 s')
          end
      end
  end.

(** [render(template, context)] of the specification, for the context
    of [callGeminiApi]. *)
Definition render_spec (promptTemplate userMessage : string) : string :=
  one_pass (context userMessage) 0 promptTemplate.

(** The same chain over an arbitrary context. *)
Definition chain (ctx : list (string * string)) (s : string) : string :=
  fold_left (fun acc pv => Replace.replace_all (fst pv) (snd pv) acc) ctx s.

(** A replacement value without [$] is inserted as it is written. *)
Definition plain (v : string) : bool := negb (Str.mem Replace.dollar v).

(** The patterns of a context are non-empty, and no pattern can begin
    inside a later one. *)
Fixpoint patterns_apart (ctx : list (string * string)) : bool :=
  match ctx with
  | [] => true
  | (p, _) :: rest =>
      negb (String.eqb p EmptyString)
      && forallb (fun pv' => negb (Str.collides p (fst pv'))) rest
      && patterns_apart rest
  end.

(** A user message that cannot interfere with the placeholders: it has
    no [$], and in no text can an occurrence of it share a position
    with an occurrence of a recognized placeholder. *)
Definition inert (userMessage : string) : bool :=
  plain userMessage
  && forallb (fun p => negb (Str.overlaps p userMessage)) recognized.

End Template.

(** ** JavaScript values *)

Module JS.

(** The values [JSON.parse] produces, and [undefined].  Numbers are the
    integer-valued ones (status codes, chat identifiers), within the
    safe range of plus or minus 2^53, where a number is printed as its
    decimal digits; objects keep their members in insertion order, one
    entry per key. *)
Inductive value : Type :=
| VUndef
| VNull
| VBool (b : bool)
| VNum (n : Z)
| VStr (s : string)
| VArr (items : list value)
| VObj (fields : list (string * value)).

Inductive error_name : Type :=
| Error | TypeError | ReferenceError | SyntaxError | InvalidCharacterError.

(** A thrown [Error] object: its constructor and its [message].  The
    messages of the errors the engine raises are those of V8; no
    statement below depends on their wording. *)
Record error : Type := mkError { name : error_name; message : string }.

Inductive outcome (A : Type) : Type :=
| Ok (a : A)
| Throw (e : error).
Arguments Ok {A} a.
Arguments Throw {A} e.

(** [!!v] *)
Definition truthy (v : value) : bool :=
  match v with
  | VUndef | VNull => false
  | VBool b => b
  | VNum n => negb (Z.eqb n 0)
  | VStr s => negb (String.eqb s EmptyString)
  | VArr _ | VObj _ => true
  end.

Definition nullish (v : value) : bool :=
  match v with
  | VUndef | VNull => true
  | _ => false
  end.

Fixpoint assoc (k : string) (fields : list (string * value)) : value :=
  match fields with
  | [] => VUndef
  | (k', x) :: fields' => if String.eqb k k' then x else assoc k fields'
  end.

(** [v.k] for a member name [k] that is not a built-in member of
    strings, numbers, booleans or arrays (none of the names the worker
    reads is): a [TypeError] on [null] and [undefined], the member of an
    object, [undefined] on everything else. *)
Definition get (v : value) (k : string) : outcome value :=
  match v with
  | VUndef =>
      Throw (mkError TypeError
        ("Cannot read properties of undefined (reading '" ++ k ++ "')"))
  | VNull =>
      Throw (mkError TypeError
        ("Cannot read properties of null (reading '" ++ k ++ "')"))
  | VObj fields => Ok (assoc k fields)
  | _ => Ok VUndef
  end.

(** [v[0]]: the first element of an array, the first character of a
    non-empty string (its first byte here; the worker only tests it
    and reads members of it), the member ["0"] of an object. *)
Definition index0 (v : value) : outcome value :=
  match v with
  | VUndef =>
      Throw (mkError TypeError
        "Cannot read properties of undefined (reading '0')")
  | VNull =>
      Throw (mkError TypeError
        "Cannot read properties of null (reading '0')")
  | VArr items => Ok (hd VUndef items)
  | VStr (String c _) => Ok (VStr (String c EmptyString))
  | VObj fields => Ok (assoc "0" fields)
  | _ => Ok VUndef
  end.

(** [a === b].  Two arrays or objects are equal only when they are the
    same object; the operands the worker compares come from two
    different [JSON.parse] calls, so they never are. *)
Definition strict_eq (a b : value) : bool :=
  match a, b with
  | VUndef, VUndef => true
  | VNull, VNull => true
  | VBool x, VBool y => Bool.eqb x y
  | VNum x, VNum y => Z.eqb x y
  | VStr x, VStr y => String.eqb x y
  | _, _ => false
  end.

Definition string_of_Z (n : Z) : string :=
  NilZero.string_of_int (Z.to_int n).

Fixpoint join (sep : string) (l : list string) : string :=
  match l with
  | [] => EmptyString
  | [x] => x
  | x :: l' => x ++ sep ++ join sep l'
  end.

(** The object has a member of its own with the key [k]. *)
Definition has_member (k : string) (fields : list (string * value)) : bool :=
  existsb (fun kv => String.eqb k (fst kv)) fields.

(** [ToString(v)], the conversion a template literal and a replacement
    value go through.  An object is converted by its [toString]
    method: a parsed object with a member [toString] of its own hides
    the inherited method by a value that cannot be called, and the
    conversion throws; any other parsed object gives
    ["[object Object]"].  An array joins the conversions of its
    elements, [null] and [undefined] counting as empty, and throws
    where an element does. *)
Fixpoint to_string (v : value) : outcome string :=
  match v with
  | VUndef => Ok "undefined"
  | VNull => Ok "null"
  | VBool true => Ok "true"
  | VBool false => Ok "false"
  | VNum n => Ok (string_of_Z n)
  | VStr s => Ok s
  | VArr items =>
      match
        (fix elements (l : list value) : outcome (list string) :=
           match l with
           | [] => Ok []
           | x :: l' =>
               match (if nullish x then Ok EmptyString else to_string x) with
               | Throw e => Throw e
               | Ok s =>
                   match elements l' with
                   | Throw e => Throw e
                   | Ok ss => Ok (s :: ss)
                   end
               end
           end) items
      with
      | Throw e => Throw e
      | Ok ss => Ok (join "," ss)
      end
  | VObj fields =>
      if has_member "toString" fields then
        Throw (mkError TypeError "Cannot convert object to primitive value")
      else Ok "[object Object]"
  end.

(** [JSON.parse(JSON.stringify(v))] for [v] other than [undefined]:
    members that are [undefined] disappear, array elements that are
    [undefined] become [null]. *)
Fixpoint reparse (v : value) : value :=
  match v with
  | VArr items =>
      VArr (map (fun x => match x with
                          | VUndef => VNull
                          | _ => reparse x
                          end) items)
  | VObj fields =>
      VObj ((fix members (fs : list (string * value)) :=
               match fs with
               | [] => []
               | (k, x) :: fs' =>
                   match x with
                   | VUndef => members fs'
                   | _ => (k, reparse x) :: members fs'
                   end
               end) fields)
  | _ => v
  end.

(** [arr.find(pred)] for a callback that may throw. *)
Fixpoint find_first (pred : value -> outcome bool) (items : list value)
  : outcome value :=
  match items with
  | [] => Ok VUndef
  | x :: items' =>
      match pred x with
      | Throw e => Throw e
      | Ok true => Ok x
      | Ok false => find_first pred items'
      end
  end.

End JS.

(** ** The network: [fetch] and its trace *)

Module Net.
Import JS.

(** A text together with its reading as JSON ([None] when the text is
    not valid JSON, so that [JSON.parse] and [Response.json] throw). *)
Record text_body : Type := mkText {
  text : string;
  parsed : option value
}.

(** An outbound [fetch(url, init)].  [url] is the first argument as the
    caller passes it; [body] is the object handed to [JSON.stringify]. *)
Record http_request : Type := mkRequest {
  method : string;
  url : value;
  headers : list (string * string);
  body : option value
}.

Record http_response : Type := mkResponse {
  status : Z;
  statusText : string;
  payload : text_body
}.

(** [response.ok]: the status is in the range 200-299. *)
Definition ok (r : http_response) : bool :=
  (200 <=? status r)%Z && (status r <=? 299)%Z.

(** A [fetch] promise either rejects or resolves to a response. *)
Inductive fetch_result : Type :=
| Rejected (e : error)
| Resolved (r : http_response).

Definition event : Type := (http_request * fetch_result)%type.
Definition trace : Type := list event.

(** The remote services: what a request gets, given the calls made so
    far in this invocation. *)
Definition world : Type := trace -> http_request -> fetch_result.

(** Programs: they read the world, extend the trace, and return or
    throw. *)
Definition M (A : Type) : Type := world -> trace -> outcome A * trace.

Definition ret {A} (a : A) : M A := fun _ t => (Ok a, t).
Definition throw {A} (e : error) : M A := fun _ t => (Throw e, t).
Definition bind {A B} (m : M A) (k : A -> M B) : M B :=
  fun w t =>
    match m w t with
    | (Ok a, t') => k a w t'
    | (Throw e, t') => (Throw e, t')
    end.
Definition try_catch {A} (m : M A) (handler : error -> M A) : M A :=
  fun w t =>
    match m w t with
    | (Ok a, t') => (Ok a, t')
    | (Throw e, t') => handler e w t'
    end.
Definition lift {A} (o : outcome A) : M A := fun _ t => (o, t).

Definition fetch (req : http_request) : M http_response :=
  fun w t =>
    let r := w t req in
    (match r with
     | Rejected e => Throw e
     | Resolved resp => Ok resp
     end, (t ++ [(req, r)])%list).

(** [JSON.parse(text)] and [response.json()] *)
Definition json_parse (b : text_body) : M value :=
  match parsed b with
  | Some v => ret v
  | None => throw (mkError SyntaxError "Unexpected token in JSON")
  end.

Definition run {A} (m : M A) (w : world) : outcome A * trace := m w [].

(** The requests of a trace, in the order they were made. *)
Definition requests (t : trace) : list http_request := map fst t.

End Net.

Declare Scope js_scope.
Delimit Scope js_scope with js.
Notation "x <- m ;; k" := (Net.bind m (fun x => k))
  (at level 61, m at next level, right associativity) : js_scope.
Notation "m ;;; k" := (Net.bind m (fun _ => k))
  (at level 61, right associativity) : js_scope.

(** ** The worker *)

Module Worker.
Import JS Net.
Local Open Scope js_scope.

Definition GITHUB_API_URL : string := "https://api.github.com".
Definition GEMINI_MODEL : string := "gemini-2.5-flash".

(** [env]: the secrets and variables of the deployment; [None] is a
    binding that is not configured ([undefined]). *)
Record env : Type := mkEnv {
  GITHUB_OWNER : option string;
  GITHUB_REPO : option string;
  PROMPTS_PATH : option string;
  GITHUB_PAT : option string;
  GEMINI_API_KEY : option string;
  TELEGRAM_BOT_TOKEN : option string
}.

(** [!!env.X] *)
Definition configured (x : option string) : bool :=
  match x with
  | Some s => negb (String.eqb s EmptyString)
  | None => false
  end.

(** [`${env.X}`] *)
Definition interp (x : option string) : string :=
  match x with
  | Some s => s
  | None => "undefined"
  end.

(** The inbound [Request]: the reading of its body as JSON, [None] when
    [request.json()] throws. *)
Record request : Type := mkInbound { json_body : option value }.

Definition request_json (r : request) : M value :=
  match json_body r with
  | Some v => ret v
  | None => throw (mkError SyntaxError "Unexpected token in JSON")
  end.

(** [new Response(body, { status })]: the body is a plain text or the
    [JSON.stringify] of an object. *)
Inductive response_body : Type :=
| Text (s : string)
| Json (v : value).

Record response : Type := mkResp {
  status : Z;
  content : response_body
}.

(** The built-ins the handlers call whose results no handler inspects,
    and the global scope of the module. *)
Record runtime : Type := mkRuntime {
  (** [JSON.stringify(v, null, 4)] *)
  stringify_pretty : value -> string;
  (** [btoa(s)]; [None] when [s] has a character above U+00FF *)
  btoa : string -> option string;
  (** [s.trim()] *)
  trim : string -> string;
  (** the binding of the identifier [update] in the global scope, [None]
      when there is none; the module declares none *)
  global_update : option value
}.

(** *** [fetchPromptsFromGitHub] *)

Definition contents_url (owner repo path : option string) : string :=
  GITHUB_API_URL ++ "/repos/" ++ interp owner ++ "/" ++ interp repo
    ++ "/contents/" ++ interp path.

Definition metadata_request (owner repo path : option string)
  : http_request :=
  mkRequest "GET" (VStr (contents_url owner repo path))
    [("Accept", "application/vnd.github.v3+json")] None.

Definition download_request (download_url : value) : http_request :=
  mkRequest "GET" download_url [] None.

Definition fetchPromptsFromGitHub (owner repo path : option string)
  : M (text_body * value) :=
  metadataResponse <- fetch (metadata_request owner repo path) ;;
  if negb (ok metadataResponse) then
    throw (mkError Error
      ("Failed to fetch prompts metadata from GitHub: "
         ++ statusText metadataResponse))
  else
    metadata <- json_parse (payload metadataResponse) ;;
    sha <- lift (get metadata "sha") ;;
    download_url <- lift (get metadata "download_url") ;;
    contentResponse <- fetch (download_request download_url) ;;
    if negb (ok contentResponse) then
      throw (mkError Error
        ("Failed to fetch raw prompts content from GitHub: "
           ++ statusText contentResponse))
    else
      ret (payload contentResponse, sha).

(** *** [callGeminiApi] *)

Definition fallback_message : string :=
  "Извините, не удалось получить ответ от AI. Попробуйте перефразировать запрос.".

Definition gemini_url (apiKey : option string) : string :=
  "https://generativelanguage.googleapis.com/v1beta/models/"
    ++ GEMINI_MODEL ++ ":generateContent?key=" ++ interp apiKey.

Definition gemini_request (apiKey : option string) (finalPrompt : string)
  : http_request :=
  mkRequest "POST" (VStr (gemini_url apiKey))
    [("Content-Type", "application/json")]
    (Some (VObj [("contents",
       VArr [VObj [("role", VStr "user");
                   ("parts", VArr [VObj [("text", VStr finalPrompt)]])]])])).

(** [promptTemplate.replace(...)...]: a method call on the template,
    which throws unless the template is a string.  The first [replace]
    converts its replacement value, the user message, to a string
    before it looks for a match, and throws where the conversion
    does. *)
Definition final_prompt (promptTemplate userMessage : value)
  : outcome string :=
  match promptTemplate with
  | VStr tpl =>
      match to_string userMessage with
      | Ok replacement => Ok (Template.render tpl replacement)
      | Throw e => Throw e
      end
  | VUndef =>
      Throw (mkError TypeError
        "Cannot read properties of undefined (reading 'replace')")
  | VNull =>
      Throw (mkError TypeError
        "Cannot read properties of null (reading 'replace')")
  | _ => Throw (mkError TypeError "promptTemplate.replace is not a function")
  end.

(** The extraction of the answer from the parsed response. *)
Definition extract_text (json : value) : M value :=
  candidates <- lift (get json "candidates") ;;
  if truthy candidates then
    first <- lift (index0 candidates) ;;
    if truthy first then
      content <- lift (get first "content") ;;
      if truthy content then
        parts <- lift (get content "parts") ;;
        if truthy parts then
          part <- lift (index0 parts) ;;
          lift (get part "text")
        else ret (VStr fallback_message)
      else ret (VStr fallback_message)
    else ret (VStr fallback_message)
  else ret (VStr fallback_message).

Definition callGeminiApi (promptTemplate userMessage : value)
  (apiKey : option string) : M value :=
  finalPrompt <- lift (final_prompt promptTemplate userMessage) ;;
  response <- fetch (gemini_request apiKey finalPrompt) ;;
  if negb (ok response) then
    let errorText := text (payload response) in
    throw (mkError Error
      ("Gemini API error: " ++ string_of_Z (Net.status response)
         ++ " - " ++ errorText))
  else
    json <- json_parse (payload response) ;;
    extract_text json.

(** *** [handleChat] *)

Definition json_response (st : Z) (fields : list (string * value))
  : response :=
  mkResp st (Json (VObj fields)).

(** [prompts.find(p => p.id === function_id)] *)
Definition find_prompt (prompts function_id : value) : M value :=
  match prompts with
  | VArr items =>
      lift (find_first
              (fun p => match get p "id" with
                        | Ok id => Ok (strict_eq id function_id)
                        | Throw e => Throw e
                        end) items)
  | VUndef =>
      throw (mkError TypeError
        "Cannot read properties of undefined (reading 'find')")
  | VNull =>
      throw (mkError TypeError
        "Cannot read properties of null (reading 'find')")
  | _ => throw (mkError TypeError "prompts.find is not a function")
  end.

Definition handleChat (req : request) (e : env) : M response :=
  try_catch
    (parsed <- request_json req ;;
     message <- lift (get parsed "message") ;;
     function_id <- lift (get parsed "function_id") ;;
     if negb (truthy message) || negb (truthy function_id) then
       ret (json_response 400
              [("error", VStr "Missing 'message' or 'function_id'")])
     else if negb (configured (GEMINI_API_KEY e)) then
       ret (json_response 500
              [("error", VStr "GEMINI_API_KEY is not configured.")])
     else
       fetched <- fetchPromptsFromGitHub
                    (GITHUB_OWNER e) (GITHUB_REPO e) (PROMPTS_PATH e) ;;
       prompts <- json_parse (fst fetched) ;;
       selectedPrompt <- find_prompt prompts function_id ;;
       if negb (truthy selectedPrompt) then
         name <- lift (to_string function_id) ;;
         ret (json_response 404
                [("error", VStr ("Function ID '" ++ name ++ "' not found."))])
       else
         template <- lift (get selectedPrompt "prompt") ;;
         aiResponse <- callGeminiApi template message (GEMINI_API_KEY e) ;;
         ret (json_response 200 [("response", aiResponse)]))
    (fun error =>
       ret (json_response 500
              [("error", VStr ("Internal Server Error during chat processing: "
                                 ++ message error))])).

Section Handlers.

Variable rt : runtime.

(** *** [handleSavePrompts] *)

Definition commit_request (e : env) (encoded : string) (sha : value)
  : http_request :=
  mkRequest "PUT"
    (VStr (contents_url (GITHUB_OWNER e) (GITHUB_REPO e) (PROMPTS_PATH e)))
    [("Authorization", "token " ++ interp (GITHUB_PAT e));
     ("Content-Type", "application/json");
     ("Accept", "application/vnd.github.v3+json")]
    (Some (VObj [("message", VStr "Update prompts.json from Admin Panel");
                 ("content", VStr encoded);
                 ("sha", sha)])).

Definition encode_content (newPromptsContent : string) : M string :=
  match btoa rt newPromptsContent with
  | Some encoded => ret encoded
  | None =>
      throw (mkError InvalidCharacterError
        "The string to be encoded contains characters outside of the Latin1 range.")
  end.

Definition save_success : response :=
  json_response 200
    [("success", VBool true);
     ("message", VStr "Prompts successfully saved and committed to GitHub.")].

Definition handleSavePrompts (req : request) (e : env) : M response :=
  if negb (configured (GITHUB_PAT e)) then
    ret (json_response 500
           [("error", VStr "GITHUB_PAT secret is not configured.")])
  else
    try_catch
      (newPromptsJson <- request_json req ;;
       let newPromptsContent := stringify_pretty rt newPromptsJson in
       fetched <- fetchPromptsFromGitHub
                    (GITHUB_OWNER e) (GITHUB_REPO e) (PROMPTS_PATH e) ;;
       let sha := snd fetched in
       encoded <- encode_content newPromptsContent ;;
       commitResponse <- fetch (commit_request e encoded sha) ;;
       if negb (ok commitResponse) then
         let errorText := text (payload commitResponse) in
         throw (mkError Error
           ("Failed to commit to GitHub: "
              ++ string_of_Z (Net.status commitResponse)
              ++ " - " ++ errorText))
       else ret save_success)
      (fun error =>
         ret (json_response 500
                [("error", VStr ("Internal Server Error during prompt saving: "
                                   ++ message error))])).

(** *** [sendTelegramMessage] *)

Definition telegram_request (chatId text : value) (token : option string)
  : http_request :=
  mkRequest "POST"
    (VStr ("https://api.telegram.org/bot" ++ interp token ++ "/sendMessage"))
    [("Content-Type", "application/json")]
    (Some (VObj [("chat_id", chatId);
                 ("text", text);
                 ("parse_mode", VStr "Markdown")])).

Definition sendTelegramMessage (chatId text : value) (token : option string)
  : M unit :=
  fetch (telegram_request chatId text token) ;;; ret tt.

(** *** [handleTelegramWebhook] *)

Definition generic_error_text : string :=
  "Извините, произошла внутренняя ошибка сервера.".

(** [message.text.trim()] *)
Definition trim_text (text : value) : outcome value :=
  match text with
  | VStr s => Ok (VStr (trim rt s))
  | VUndef =>
      Throw (mkError TypeError
        "Cannot read properties of undefined (reading 'trim')")
  | VNull =>
      Throw (mkError TypeError
        "Cannot read properties of null (reading 'trim')")
  | _ => Throw (mkError TypeError "message.text.trim is not a function")
  end.

(** [chatResponse.json()] on a response built by [handleChat] *)
Definition response_json (r : response) : M value :=
  match content r with
  | Json v => ret (reparse v)
  | Text _ => throw (mkError SyntaxError "Unexpected token in JSON")
  end.

(** The [update] the [catch] block names.  The [const update] of the
    [try] block is out of scope there, so the identifier is looked up in
    the global scope. *)
Definition update_in_catch : M value :=
  match global_update rt with
  | Some v => ret v
  | None => throw (mkError ReferenceError "update is not defined")
  end.

Definition webhook_catch (e : env) (error : error) : M response :=
  update <- update_in_catch ;;
  (if truthy update then
     message <- lift (get update "message") ;;
     if truthy message then
       chat <- lift (get message "chat") ;;
       if truthy chat then
         chatId <- lift (get chat "id") ;;
         sendTelegramMessage chatId (VStr generic_error_text)
           (TELEGRAM_BOT_TOKEN e)
       else ret tt
     else ret tt
   else ret tt) ;;;
  ret (mkResp 500 (Text "Error")).

Definition handleTelegramWebhook (req : request) (e : env) : M response :=
  if negb (configured (TELEGRAM_BOT_TOKEN e)) then
    ret (mkResp 500 (Text "TELEGRAM_BOT_TOKEN is not configured."))
  else
    try_catch
      (update <- request_json req ;;
       message <- lift (get update "message") ;;
       if negb (truthy message) then ret (mkResp 200 (Text "OK"))
       else
         text <- lift (get message "text") ;;
         if negb (truthy text) then ret (mkResp 200 (Text "OK"))
         else
           chat <- lift (get message "chat") ;;
           chatId <- lift (get chat "id") ;;
           userText <- lift (trim_text text) ;;
           let functionId := VStr "product_recommendation" in
           let chatRequest :=
             mkInbound (Some (reparse (VObj [("message", userText);
                                             ("function_id", functionId)])))
           in
           chatResponse <- handleChat chatRequest e ;;
           chatJson <- response_json chatResponse ;;
           err <- lift (get chatJson "error") ;;
           responseText <-
             (if truthy err then
                errorText <- lift (to_string err) ;;
                ret (VStr ("Произошла ошибка: " ++ errorText))
              else lift (get chatJson "response")) ;;
           sendTelegramMessage chatId responseText (TELEGRAM_BOT_TOKEN e) ;;;
           ret (mkResp 200 (Text "OK")))
      (webhook_catch e).

End Handlers.

End Worker.

(** ** The entry point: [export default { fetch }] *)

Module Main.
Import JS Net Worker.
Local Open Scope js_scope.

(** The inbound [Request] as the router reads it: [request.method],
    the [pathname] of [new URL(request.url)], and the body the handlers
    read. *)
Record inbound : Type := mkIn {
  in_method : string;
  pathname : string;
  inner : request
}.

(** What the router returns: the [Response] object of a handler as it
    is, or a [new Response(body, { status, headers })] of its own
    ([None] is the body [null]; the status defaults to 200). *)
Inductive routed : Type :=
| Passed (r : response)
| Built (st : Z) (hs : list (string * string)) (body : option response_body).

Definition preflight_headers : list (string * string) :=
  [("Access-Control-Allow-Origin", "*");
   ("Access-Control-Allow-Methods", "GET, POST, OPTIONS");
   ("Access-Control-Allow-Headers", "Content-Type")].

Definition cors_headers : list (string * string) :=
  [("Content-Type", "application/json");
   ("Access-Control-Allow-Origin", "*")].

Definition running : response_body :=
  Json (VObj [("message", VStr "AI Shop Assistant Worker is running.")]).

Section Router.

Variable rt : runtime.

Definition fetch (request : inbound) (e : env) : M routed :=
  if String.eqb (in_method request) "OPTIONS" then
    ret (Built 200 preflight_headers None)
  else if String.eqb (pathname request) "/api/chat"
          && String.eqb (in_method request) "POST" then
    response <- handleChat (inner request) e ;;
    ret (Built (status response) cors_headers (Some (content response)))
  else if String.eqb (pathname request) "/api/save-prompts"
          && String.eqb (in_method request) "POST" then
    response <- handleSavePrompts rt (inner request) e ;;
    ret (Built (status response) cors_headers (Some (content response)))
  else if String.eqb (pathname request) "/telegram-webhook"
          && String.eqb (in_method request) "POST" then
    response <- handleTelegramWebhook rt (inner request) e ;;
    ret (Passed response)
  else
    ret (Built 200 cors_headers (Some running)).

End Router.

(** The request is a [POST] to one of the three routes. *)
Definition routed_post (request : inbound) : bool :=
  String.eqb (in_method request) "POST"
  && (String.eqb (pathname request) "/api/chat"
      || String.eqb (pathname request) "/api/save-prompts"
      || String.eqb (pathname request) "/telegram-webhook").

End Main.

(** ** What the handlers are observed to do *)

Module Behaviour.
Import JS Net Worker.

(** The ways a call of [fetchPromptsFromGitHub] can go, from the trace
    [t]: it stops at the metadata request, it stops at the download,
    or it returns the content and the SHA of the metadata. *)
Inductive fetched_prompts (owner repo path : option string)
  (w : world) (t : trace) : outcome (text_body * value) -> trace -> Prop :=
| FetchedNoMetadata res e :
    w t (metadata_request owner repo path) = res ->
    fetched_prompts owner repo path w t (Throw e)
      (t ++ [(metadata_request owner repo path, res)])%list
| FetchedNoContent metaResp meta sha dl res e :
    w t (metadata_request owner repo path) = Resolved metaResp ->
    ok metaResp = true ->
    parsed (payload metaResp) = Some meta ->
    get meta "sha" = Ok sha ->
    get meta "download_url" = Ok dl ->
    w (t ++ [(metadata_request owner repo path, Resolved metaResp)])%list
      (download_request dl) = res ->
    (forall r, res = Resolved r -> ok r = false) ->
    fetched_prompts owner repo path w t (Throw e)
      ((t ++ [(metadata_request owner repo path, Resolved metaResp)])
         ++ [(download_request dl, res)])%list
| FetchedBoth metaResp meta sha dl contentResp :
    w t (metadata_request owner repo path) = Resolved metaResp ->
    ok metaResp = true ->
    parsed (payload metaResp) = Some meta ->
    get meta "sha" = Ok sha ->
    get meta "download_url" = Ok dl ->
    w (t ++ [(metadata_request owner repo path, Resolved metaResp)])%list
      (download_request dl) = Resolved contentResp ->
    ok contentResp = true ->
    fetched_prompts owner repo path w t (Ok (payload contentResp, sha))
      ((t ++ [(metadata_request owner repo path, Resolved metaResp)])
         ++ [(download_request dl, Resolved contentResp)])%list.

(** A member of a request body that is missing or the empty string. *)
Definition missing_or_empty (v : value) : Prop :=
  v = VUndef \/ v = VStr EmptyString.

(** No element of the document has the identifier [function_id]. *)
Definition no_prompt_with (function_id : value) (items : list value) : Prop :=
  Forall (fun p => nullish p = false
                   /\ forall id, get p "id" = Ok id ->
                                 strict_eq id function_id = false) items.


Definition error_body (msg : string) : response_body :=
  Json (VObj [("error", VStr msg)]).

(** The request has an [Authorization] header. *)
Definition authorized (r : http_request) : Prop :=
  exists v, In ("Authorization", v) (headers r).

(** The requests [handleChat] makes: the two reads of the store and the
    call of the completion backend. *)
Inductive chat_request_kind (e : env) : http_request -> Prop :=
| KindMetadata :
    chat_request_kind e
      (metadata_request (GITHUB_OWNER e) (GITHUB_REPO e) (PROMPTS_PATH e))
| KindDownload dl : chat_request_kind e (download_request dl)
| KindCompletion prompt :
    chat_request_kind e (gemini_request (GEMINI_API_KEY e) prompt).

(** The requests [handleSavePrompts] makes: the two reads of the store
    and the commit. *)
Inductive save_request_kind (e : env) : http_request -> Prop :=
| SaveMetadata :
    save_request_kind e
      (metadata_request (GITHUB_OWNER e) (GITHUB_REPO e) (PROMPTS_PATH e))
| SaveDownload dl : save_request_kind e (download_request dl)
| SaveCommit encoded sha :
    save_request_kind e (commit_request e encoded sha).

(** The requests [handleTelegramWebhook] makes: those of [handleChat]
    and the messages to Telegram. *)
Inductive webhook_request_kind (e : env) : http_request -> Prop :=
| WebhookChat r : chat_request_kind e r -> webhook_request_kind e r
| WebhookSend chatId text :
    webhook_request_kind e
      (telegram_request chatId text (TELEGRAM_BOT_TOKEN e)).

(** Whatever the remote services answer and whatever trace it starts
    from, the program [m] adds at most [n] events to the trace, each of
    them a request in [P]. *)
Definition emits {A : Type} (P : http_request -> Prop) (n : nat) (m : M A)
  : Prop :=
  forall w t,
    exists t', snd (m w t) = (t ++ t')%list
               /\ Forall (fun ev => P (fst ev)) t'
               /\ (List.length t' <= n)%nat.

(** The text the webhook sends to the chat for a response of
    [handleChat]: the error with a prefix, or the answer as it comes
    back from [JSON.parse(JSON.stringify(...))]. *)
Inductive webhook_reply : response -> value -> Prop :=
| ReplyError st msg :
    msg <> EmptyString ->
    webhook_reply (mkResp st (error_body msg))
      (VStr ("Произошла ошибка: " ++ msg))
| ReplyAnswer st answer :
    webhook_reply (mkResp st (Json (VObj [("response", answer)])))
      (match answer with
       | VUndef => VUndef
       | _ => reparse answer
       end).

(** The request the webhook hands to [handleChat]. *)
Definition webhook_chat_request (userText : string) : request :=
  mkInbound
    (Some (reparse (VObj [("message", VStr userText);
                          ("function_id", VStr "product_recommendation")]))).

End Behaviour.

(** ** Sample deployments *)

Module Samples.
Import JS Net Worker.

Definition dq : string := String (Ascii.ascii_of_nat 34) EmptyString.
Definition quoted (s : string) : string := dq ++ s ++ dq.

(** The remote services as a script: the n-th request of an invocation
    gets the n-th result; a request beyond the script is rejected. *)
Definition scripted (results : list fetch_result) : world :=
  fun t _ =>
    nth (List.length t) results
      (Rejected (mkError TypeError "fetch failed")).

Definition sample_env : env :=
  mkEnv (Some "shop") (Some "assistant") (Some "prompts.json")
    (Some "ghp_pat") (Some "gemini-key") (Some "bot-token").

(** The built-ins by their values on the inputs of the samples:
    [JSON.stringify([], null, 4)] is ["[]"], [btoa("[]")] is ["W10="],
    and the sample texts have no white space at their ends.  No global
    [update] exists. *)
Definition sample_runtime : runtime :=
  mkRuntime (fun _ => "[]") (fun _ => Some "W10=") (fun s => s) None.

Definition raw_url : string :=
  "https://raw.githubusercontent.com/shop/assistant/main/prompts.json".

Definition metadata_ok : http_response :=
  mkResponse 200 "OK"
    (mkText ("{" ++ quoted "sha" ++ ":" ++ quoted "T1" ++ ","
               ++ quoted "download_url" ++ ":" ++ quoted raw_url ++ "}")
       (Some (VObj [("sha", VStr "T1"); ("download_url", VStr raw_url)]))).

Definition metadata_missing : http_response :=
  mkResponse 404 "Not Found"
    (mkText ("{" ++ quoted "message" ++ ":" ++ quoted "Not Found" ++ "}")
       (Some (VObj [("message", VStr "Not Found")]))).

Definition prompt (id template : string) : value :=
  VObj [("id", VStr id); ("name", VStr id); ("description", VStr id);
        ("prompt", VStr template)].

Definition prompt_text (id template : string) : string :=
  "{" ++ quoted "id" ++ ":" ++ quoted id ++ ","
    ++ quoted "name" ++ ":" ++ quoted id ++ ","
    ++ quoted "description" ++ ":" ++ quoted id ++ ","
    ++ quoted "prompt" ++ ":" ++ quoted template ++ "}".

(** The document with the identifiers [a] and [b]. *)
Definition document_ab : http_response :=
  mkResponse 200 "OK"
    (mkText ("[" ++ prompt_text "a" "A {{product_data}}" ++ ","
               ++ prompt_text "b" "B {{size_chart}}" ++ "]")
       (Some (VArr [prompt "a" "A {{product_data}}";
                    prompt "b" "B {{size_chart}}"]))).

(** The document with the one prompt the webhook asks for. *)
Definition document_recommendation : http_response :=
  mkResponse 200 "OK"
    (mkText ("[" ++ prompt_text "product_recommendation"
                      "Recommend for {{user_preferences}}" ++ "]")
       (Some (VArr [prompt "product_recommendation"
                      "Recommend for {{user_preferences}}"]))).

(** The document of the end-to-end scenario of the specification. *)
Definition document_greet : http_response :=
  mkResponse 200 "OK"
    (mkText ("[" ++ prompt_text "greet" "Hello {{name}}" ++ "]")
       (Some (VArr [prompt "greet" "Hello {{name}}"]))).

(** A completion with one text segment. *)
Definition completion_hi : http_response :=
  mkResponse 200 "OK"
    (mkText ("{" ++ quoted "candidates" ++ ":[{" ++ quoted "content" ++ ":{"
               ++ quoted "parts" ++ ":[{" ++ quoted "text" ++ ":"
               ++ quoted "Hi" ++ "}]}}]}")
       (Some (VObj [("candidates",
                VArr [VObj [("content",
                  VObj [("parts", VArr [VObj [("text", VStr "Hi")]])])]])]))).

Definition commit_accepted : http_response :=
  mkResponse 200 "OK" (mkText "{}" (Some (VObj []))).

(** The completion backend is overloaded. *)
Definition completion_overloaded : http_response :=
  mkResponse 503 "Service Unavailable" (mkText "overloaded" None).


(** A completion without a text segment:
    [{"candidates":[{"content":{"parts":[]}}]}] *)
Definition completion_no_parts : http_response :=
  mkResponse 200 "OK"
    (mkText ("{" ++ quoted "candidates" ++ ":[{" ++ quoted "content" ++ ":{"
               ++ quoted "parts" ++ ":[]}}]}")
       (Some (VObj [("candidates",
                VArr [VObj [("content", VObj [("parts", VArr [])])]])]))).

(** A completion without candidates: [{}] *)
Definition completion_empty : http_response :=
  mkResponse 200 "OK" (mkText "{}" (Some (VObj []))).

(** The built-ins on a document with a Cyrillic prompt:
    [JSON.stringify(["промпт"], null, 4)] is the text below, and
    [btoa] throws on it. *)
Definition cyrillic_document : value := VArr [VStr "промпт"].

Definition cyrillic_runtime : runtime :=
  mkRuntime
    (fun _ => "[" ++ String (Ascii.ascii_of_nat 10) "    "
                ++ quoted "промпт" ++ String (Ascii.ascii_of_nat 10) "]")
    (fun _ => None) (fun s => s) None.

(** The built-ins on a text of three spaces: [trim] gives the empty
    string. *)
Definition blank_runtime : runtime :=
  mkRuntime (fun _ => "[]") (fun _ => Some "W10=") (fun _ => EmptyString)
    None.

(** Telegram accepts the message. *)
Definition telegram_ok : http_response :=
  mkResponse 200 "OK" (mkText "{}" (Some (VObj []))).

(** Telegram refuses the message. *)
Definition telegram_bad_request : http_response :=
  mkResponse 400 "Bad Request" (mkText "{}" (Some (VObj []))).

Definition chat_request (message function_id : string) : request :=
  mkInbound (Some (VObj [("message", VStr message);
                         ("function_id", VStr function_id)])).

(** The request whose body is the JSON text [null]. *)
Definition null_request : request := mkInbound (Some VNull).

(** An update with a text that is not a string:
    [{"message":{"chat":{"id":7},"text":5}}] *)
Definition update_bad_text : request :=
  mkInbound (Some (VObj [("message",
    VObj [("chat", VObj [("id", VNum 7)]); ("text", VNum 5)])])).

(** An update of a chat with a text message. *)
Definition update_text (txt : string) : request :=
  mkInbound (Some (VObj [("message",
    VObj [("chat", VObj [("id", VNum 7)]); ("text", VStr txt)])])).

(** An update without a message: [{"update_id":1}] *)
Definition update_no_message : request :=
  mkInbound (Some (VObj [("update_id", VNum 1)])).

End Samples.

(** * Properties *)

Unset Implicit Arguments.

(** ** Strings and global replacement *)

Module StrFacts.
Import Str.

Lemma starts_with_nil s : starts_with EmptyString s = true.
Proof. reflexivity. Qed.

Lemma starts_with_app p s : starts_with p (p ++ s) = true.
Proof.
  induction p as [|a p IH]; simpl; [reflexivity|].
  now rewrite Ascii.eqb_refl.
Qed.

Lemma starts_with_split p s :
  starts_with p s = true -> s = p ++ drop (String.length p) s.
Proof.
  revert s; induction p as [|a p IH]; intros s H; simpl in *; [reflexivity|].
  destruct s as [|b s]; [discriminate|].
  destruct (Ascii.eqb_spec a b) as [->|]; [|discriminate].
  f_equal. now apply IH.
Qed.

Lemma drop_app p s : drop (String.length p) (p ++ s) = s.
Proof. induction p; simpl; auto. Qed.

Lemma append_assoc (a b c : string) : (a ++ b) ++ c = a ++ (b ++ c).
Proof. induction a; simpl; congruence. Qed.

Lemma append_nil_r (a : string) : a ++ EmptyString = a.
Proof. induction a; simpl; congruence. Qed.

Lemma length_app (a b : string) :
  String.length (a ++ b) = String.length a + String.length b.
Proof. induction a; simpl; congruence. Qed.

(** A prefix of [x ++ s] is a prefix of [x] or has [x] as a prefix. *)
Lemma starts_with_app_comparable p x s :
  starts_with p (x ++ s) = true -> comparable p x = true.
Proof.
  unfold comparable.
  revert x; induction p as [|a p IH]; intros x H; [reflexivity|].
  destruct x as [|b x]; [reflexivity|].
  simpl in *. destruct (Ascii.eqb_spec a b) as [->|]; [|discriminate].
  rewrite Ascii.eqb_refl. now apply IH.
Qed.

Lemma collides_tail a c b :
  collides a (String c b) = false -> collides a b = false.
Proof. simpl. intros H. now apply orb_false_elim in H. Qed.

Lemma collides_head a c b :
  collides a (String c b) = false -> comparable a (String c b) = false.
Proof. simpl. intros H. now apply orb_false_elim in H. Qed.

(** Induction along the scan of a global replacement of [p]. *)
Lemma scan_ind (p : string) (P : string -> Prop) :
  p <> EmptyString ->
  P EmptyString ->
  (forall s, P s -> P (p ++ s)) ->
  (forall c s, starts_with p (String c s) = false -> P s -> P (String c s)) ->
  forall s, P s.
Proof.
  intros Hp Hnil Hmatch Hstep s.
  assert (H : forall n s, String.length s <= n -> P s).
  { clear s. induction n as [|n IH]; intros s Hlen.
    - destruct s; [exact Hnil|simpl in Hlen; lia].
    - destruct s as [|c s]; [exact Hnil|].
      destruct (starts_with p (String c s)) eqn:E.
      + rewrite (starts_with_split _ _ E). apply Hmatch.
        destruct p as [|a p]; [congruence|].
        * apply IH.
          pose proof (starts_with_split _ _ E) as Hs.
          apply (f_equal String.length) in Hs.
          rewrite length_app in Hs. simpl in *.
          destruct (Ascii.eqb a c); [|discriminate]. lia.
      + apply Hstep; [exact E|]. apply IH. simpl in Hlen. lia. }
  apply (H (String.length s)). lia.
Qed.

End StrFacts.

Module ReplaceFacts.
Import Str Replace StrFacts.

Lemma comparable_sym a b : comparable a b = comparable b a.
Proof. unfold comparable. apply orb_comm. Qed.

(** A replacement value without [$] stands for itself. *)
Lemma get_substitution_plain matched before after v :
  mem dollar v = false -> get_substitution matched before after v = v.
Proof.
  induction v as [|c v IH]; intros H; [reflexivity|].
  cbn [mem] in H. apply orb_false_elim in H as [Hc Hv].
  cbn [get_substitution]. rewrite Ascii.eqb_sym, Hc.
  now rewrite IH.
Qed.

Section OnePattern.

Variables p v : string.
Hypothesis p_nonempty : p <> EmptyString.
Hypothesis v_plain : mem dollar v = false.

Lemma scan_before k b b' s : scan p v k b s = scan p v k b' s.
Proof.
  revert k b b'; induction s as [|c s IH]; intros k b b'; [reflexivity|].
  cbn [scan]. destruct k as [|k].
  - rewrite !get_substitution_plain by exact v_plain.
    destruct (starts_with p (String c s)); f_equal; apply IH.
  - apply IH.
Qed.

Lemma scan_skip q b b' s :
  scan p v (String.length q) b (q ++ s) = scan p v 0 b' s.
Proof.
  revert b; induction q as [|c q IH]; intros b; simpl.
  - destruct s; [reflexivity|]. apply (scan_before 0).
  - apply IH.
Qed.

Lemma replace_all_nil : replace_all p v EmptyString = EmptyString.
Proof. reflexivity. Qed.

Lemma replace_all_step c s :
  starts_with p (String c s) = false ->
  replace_all p v (String c s) = String c (replace_all p v s).
Proof.
  intros H. unfold replace_all. cbn [scan]. rewrite H.
  f_equal. apply scan_before.
Qed.

Lemma replace_all_match s :
  replace_all p v (p ++ s) = v ++ replace_all p v s.
Proof.
  unfold replace_all. pose proof scan_skip as SK.
  destruct p as [|a q]; [congruence|].
  change (String a q ++ s) with (String a (q ++ s)).
  cbn [scan].
  change (String a (q ++ s)) with (String a q ++ s).
  rewrite starts_with_app, drop_app.
  rewrite get_substitution_plain by exact v_plain.
  f_equal. cbn [String.length]. rewrite Nat.sub_succ, Nat.sub_0_r.
  apply SK.
Qed.

(** A text in which [p] cannot begin passes through the replacement. *)
Lemma replace_all_pass x s :
  collides p x = false ->
  replace_all p v (x ++ s) = x ++ replace_all p v s.
Proof.
  induction x as [|c x IH]; intros H; [reflexivity|].
  change (String c x ++ s) with (String c (x ++ s)).
  rewrite replace_all_step.
  - simpl. f_equal. apply IH. eapply collides_tail; eauto.
  - destruct (starts_with p (String c (x ++ s))) eqn:E; [|reflexivity].
    apply (starts_with_app_comparable p (String c x) s) in E.
    apply collides_head in H. congruence.
Qed.

(** When [v] cannot begin inside [q], a [q] at the head of the result
    was at the head of the text. *)
Lemma starts_with_replace_inv q s :
  collides v q = false ->
  starts_with q (replace_all p v s) = true ->
  starts_with q s = true.
Proof.
  revert q. pattern s. apply (@scan_ind p); [exact p_nonempty| | |]; clear s.
  - intros q _ H. exact H.
  - intros s _ q Hq H. rewrite replace_all_match in H.
    destruct q as [|a q]; [reflexivity|].
    apply starts_with_app_comparable in H.
    apply collides_head in Hq. rewrite comparable_sym in Hq. congruence.
  - intros c s Hc IH q Hq H. rewrite (replace_all_step c s Hc) in H.
    destruct q as [|a q]; [reflexivity|].
    simpl in *. destruct (Ascii.eqb a c); [|discriminate].
    apply IH; [|exact H]. now apply orb_false_elim in Hq.
Qed.

Lemma replace_all_absent s :
  occurs p s = false -> replace_all p v s = s.
Proof.
  induction s as [|c s IH]; intros H; [reflexivity|].
  simpl in H. apply orb_false_elim in H as [H1 H2].
  rewrite replace_all_step by exact H1. f_equal. now apply IH.
Qed.

End OnePattern.

Lemma occurs_nil_false q : q <> EmptyString -> occurs q EmptyString = false.
Proof. destruct q; [congruence|reflexivity]. Qed.

Lemma occurs_suffix q x s : occurs q (x ++ s) = false -> occurs q s = false.
Proof.
  induction x as [|c x IH]; intros H; [exact H|].
  simpl in H. apply orb_false_elim in H as [_ H]. now apply IH.
Qed.

Lemma occurs_app_pass q x s :
  collides q x = false -> occurs q s = false -> occurs q (x ++ s) = false.
Proof.
  induction x as [|c x IH]; intros H Hs; [exact Hs|].
  change (String c x ++ s) with (String c (x ++ s)).
  cbn [occurs]. apply orb_false_intro.
  - destruct (starts_with q (String c (x ++ s))) eqn:E; [|reflexivity].
    apply (starts_with_app_comparable q (String c x) s) in E.
    apply collides_head in H. congruence.
  - apply IH; [eapply collides_tail; eauto|exact Hs].
Qed.

(** Replacing [p] by [v] does not bring [q] into a text that is free of
    it, when [q] and [v] cannot overlap. *)
Lemma replace_all_keeps_absent p v q s :
  p <> EmptyString -> mem dollar v = false ->
  collides v q = false -> collides q v = false ->
  occurs q s = false -> occurs q (replace_all p v s) = false.
Proof.
  intros Hp Hv Hvq Hqv. pattern s. apply (@scan_ind p); [exact Hp| | |]; clear s.
  - intros H. exact H.
  - intros s IH H. rewrite (@replace_all_match p v Hp Hv).
    apply occurs_app_pass; [exact Hqv|]. apply IH.
    eapply occurs_suffix; eauto.
  - intros c s Hc IH H. rewrite (@replace_all_step p v Hv c s Hc).
    simpl in H. apply orb_false_elim in H as [H1 H2].
    cbn [occurs]. apply orb_false_intro; [|now apply IH].
    destruct (starts_with q (String c (replace_all p v s))) eqn:E;
      [|reflexivity].
    rewrite <- (@replace_all_step p v Hv c s Hc) in E.
    apply (@starts_with_replace_inv p v Hp Hv q _ Hvq) in E. congruence.
Qed.

(** After the replacement of [p] by [v] no [p] is left, when [p] and
    [v] cannot overlap. *)
Lemma replace_all_removes p v s :
  p <> EmptyString -> mem dollar v = false ->
  collides v p = false -> collides p v = false ->
  occurs p (replace_all p v s) = false.
Proof.
  intros Hp Hv Hvp Hpv. pattern s. apply (@scan_ind p); [exact Hp| | |]; clear s.
  - now apply occurs_nil_false.
  - intros s IH. rewrite (@replace_all_match p v Hp Hv).
    now apply occurs_app_pass.
  - intros c s Hc IH. rewrite (@replace_all_step p v Hv c s Hc).
    cbn [occurs]. apply orb_false_intro; [|exact IH].
    destruct (starts_with p (String c (replace_all p v s))) eqn:E;
      [|reflexivity].
    rewrite <- (@replace_all_step p v Hv c s Hc) in E.
    apply (@starts_with_replace_inv p v Hp Hv p _ Hvp) in E. congruence.
Qed.

End ReplaceFacts.

(** ** The rendering chain *)

Module TemplateFacts.
Import Str Replace Template StrFacts ReplaceFacts.

Lemma chain_cons p v ctx s :
  chain ((p, v) :: ctx) s = chain ctx (replace_all p v s).
Proof. reflexivity. Qed.

Lemma chain_empty ctx : chain ctx EmptyString = EmptyString.
Proof.
  induction ctx as [|[p v] ctx IH]; [reflexivity|].
  rewrite chain_cons. exact IH.
Qed.

Lemma render_chain t m : render t m = chain (context m) t.
Proof. reflexivity. Qed.

Section Chain.

Variable ctx0 : list (string * string).
Hypothesis plain0 :
  forall p v, In (p, v) ctx0 -> mem dollar v = false.
Hypothesis nonempty0 :
  forall p v, In (p, v) ctx0 -> p <> EmptyString.
Hypothesis clear0 :
  forall p v p' v', In (p, v) ctx0 -> In (p', v') ctx0 ->
    collides v p' = false /\ collides p' v = false.

(** A text in which no pattern can begin passes through the chain. *)
Lemma chain_pass x ctx :
  incl ctx ctx0 ->
  (forall p v, In (p, v) ctx -> collides p x = false) ->
  forall s, chain ctx (x ++ s) = x ++ chain ctx s.
Proof.
  induction ctx as [|[p v] ctx IH]; intros Hin Hx s; [reflexivity|].
  rewrite !chain_cons.
  rewrite (replace_all_pass p v) by
    (first [ apply (plain0 p v), Hin; now left | apply (Hx p v); now left ]).
  apply IH.
  - intros e He. apply Hin. now right.
  - intros p' v' H'. apply (Hx p' v'). now right.
Qed.

(** A character at which no pattern begins is copied by the chain. *)
Lemma chain_step c ctx :
  incl ctx ctx0 ->
  forall s,
  (forall p v, In (p, v) ctx -> starts_with p (String c s) = false) ->
  chain ctx (String c s) = String c (chain ctx s).
Proof.
  induction ctx as [|[p v] ctx IH]; intros Hin s Hs; [reflexivity|].
  assert (Hv : mem dollar v = false) by (apply (plain0 p v), Hin; now left).
  assert (Hp : p <> EmptyString) by (apply (nonempty0 p v), Hin; now left).
  assert (Hc : starts_with p (String c s) = false) by (apply (Hs p v); now left).
  rewrite !chain_cons, (replace_all_step p v Hv c s Hc).
  apply IH.
  - intros e He. apply Hin. now right.
  - intros p' v' H'.
    destruct (starts_with p' (String c (replace_all p v s))) eqn:E;
      [|reflexivity].
    rewrite <- (replace_all_step p v Hv c s Hc) in E.
    apply (starts_with_replace_inv p v Hp Hv) in E.
    + rewrite (Hs p' v') in E by now right. discriminate.
    + apply (clear0 p v p' v'); [apply Hin; now left|apply Hin; now right].
Qed.

(** A placeholder at the head of the text is replaced by its value,
    and the chain goes on behind it. *)
Lemma chain_match p v ctx :
  incl ctx ctx0 -> patterns_apart ctx = true -> In (p, v) ctx ->
  forall s, chain ctx (p ++ s) = v ++ chain ctx s.
Proof.
  induction ctx as [|[p1 v1] ctx IH]; intros Hin Hap Hpv s; [destruct Hpv|].
  assert (Hv : mem dollar v1 = false) by (apply (plain0 p1 v1), Hin; now left).
  assert (Hp : p1 <> EmptyString) by (apply (nonempty0 p1 v1), Hin; now left).
  assert (Hin' : incl ctx ctx0) by (intros e He; apply Hin; now right).
  cbn [patterns_apart] in Hap.
  apply andb_prop in Hap as [Hap Hrest]. apply andb_prop in Hap as [_ Hap].
  rewrite forallb_forall in Hap.
  rewrite !chain_cons. destruct Hpv as [Heq|Hpv].
  - inversion Heq; subst p1 v1.
    rewrite (replace_all_match p v Hp Hv).
    apply chain_pass; [exact Hin'|].
    intros p' v' H'.
    apply (clear0 p v p' v'); [apply Hin; now left|now apply Hin'].
  - rewrite (replace_all_pass p1 v1 Hv).
    + now apply IH.
    + specialize (Hap (p, v) Hpv). cbn [fst] in Hap.
      now apply negb_true_iff in Hap.
Qed.

(** The chain leaves no placeholder behind, and brings in none that
    was absent. *)
Lemma chain_free q ctx :
  incl ctx ctx0 ->
  (forall p v, In (p, v) ctx0 ->
     collides v q = false /\ collides q v = false) ->
  forall s,
  occurs q s = false \/ In q (map fst ctx) ->
  occurs q (chain ctx s) = false.
Proof.
  intros Hin Hq. induction ctx as [|[p v] ctx IH]; intros s H.
  - destruct H as [H|[]]. exact H.
  - assert (Hv : mem dollar v = false) by (apply (plain0 p v), Hin; now left).
    assert (Hp : p <> EmptyString) by (apply (nonempty0 p v), Hin; now left).
    assert (Hin' : incl ctx ctx0) by (intros e He; apply Hin; now right).
    destruct (Hq p v) as [Hvq Hqv]; [apply Hin; now left|].
    rewrite chain_cons. apply (IH Hin').
    destruct H as [H|[H|H]].
    + left. now apply replace_all_keeps_absent.
    + left. cbn [fst] in H. subst q. now apply replace_all_removes.
    + now right.
Qed.

Lemma chain_absent ctx :
  incl ctx ctx0 ->
  forall s,
  (forall p v, In (p, v) ctx -> occurs p s = false) ->
  chain ctx s = s.
Proof.
  induction ctx as [|[p v] ctx IH]; intros Hin s H; [reflexivity|].
  rewrite chain_cons, (replace_all_absent p v).
  - apply IH; [intros e He; apply Hin; now right|].
    intros p' v' H'. apply (H p' v'). now right.
  - apply (plain0 p v), Hin. now left.
  - apply (H p v). now left.
Qed.

Lemma lookup_prefix_some ctx s p v :
  lookup_prefix ctx s = Some (p, v) ->
  In (p, v) ctx /\ starts_with p s = true.
Proof.
  induction ctx as [|[p1 v1] ctx IH]; intros H; [discriminate|].
  cbn [lookup_prefix] in H. destruct (starts_with p1 s) eqn:E.
  - inversion H; subst. split; [now left|exact E].
  - destruct (IH H) as [H1 H2]. split; [now right|exact H2].
Qed.

Lemma lookup_prefix_none ctx s :
  lookup_prefix ctx s = None ->
  forall p v, In (p, v) ctx -> starts_with p s = false.
Proof.
  induction ctx as [|[p1 v1] ctx IH]; intros H p v Hin; [destruct Hin|].
  cbn [lookup_prefix] in H. destruct (starts_with p1 s) eqn:E; [discriminate|].
  destruct Hin as [Heq|Hin]; [inversion Heq; subst; exact E|].
  now apply (IH H p v).
Qed.

Lemma one_pass_skip ctx q s :
  one_pass ctx (String.length q) (q ++ s) = one_pass ctx 0 s.
Proof. induction q as [|c q IH]; [reflexivity|exact IH]. Qed.

Hypothesis apart0 : patterns_apart ctx0 = true.

(** The chain computes the single pass of the specification. *)
Lemma chain_one_pass s : chain ctx0 s = one_pass ctx0 0 s.
Proof.
  assert (H : forall n s, String.length s <= n ->
                          chain ctx0 s = one_pass ctx0 0 s).
  { clear s. induction n as [|n IH]; intros s Hlen.
    - destruct s; [apply chain_empty|simpl in Hlen; lia].
    - destruct s as [|c s]; [apply chain_empty|].
      cbn [one_pass]. destruct (lookup_prefix ctx0 (String c s)) as [[p v]|] eqn:E.
      + apply lookup_prefix_some in E as [Hin Hp].
        pose proof (nonempty0 p v Hin) as Hne.
        rewrite (starts_with_split _ _ Hp).
        rewrite (chain_match p v ctx0 (incl_refl _) apart0 Hin).
        destruct p as [|a q]; [congruence|].
        cbn [starts_with] in Hp. destruct (Ascii.eqb a c); [|discriminate].
        apply starts_with_split in Hp.
        cbn [String.length drop]. rewrite Nat.sub_succ, Nat.sub_0_r.
        rewrite Hp at 2. rewrite one_pass_skip.
        f_equal. apply IH.
        apply (f_equal String.length) in Hp. rewrite length_app in Hp.
        simpl in Hlen. lia.
      + rewrite (chain_step c ctx0 (incl_refl _) s (lookup_prefix_none _ _ E)).
        f_equal. apply IH. simpl in Hlen. lia. }
  apply (H (String.length s)). lia.
Qed.

(** A second pass of the chain changes nothing. *)
Lemma chain_idempotent s : chain ctx0 (chain ctx0 s) = chain ctx0 s.
Proof.
  apply chain_absent; [apply incl_refl|].
  intros p v Hin. apply chain_free; [apply incl_refl| |].
  - intros p' v' Hin'. now apply (clear0 p' v' p v).
  - right. now apply (in_map fst _ (p, v)).
Qed.

End Chain.

(** *** The context of [callGeminiApi] *)

Lemma context_entry m p v :
  In (p, v) (context m) -> In p recognized /\ (v = m \/ In v constants).
Proof.
  intros H. unfold context in H. cbn [In] in H.
  repeat (destruct H as [H|H];
          [inversion H; subst; split; [cbn; tauto|cbn; tauto]|]).
  destruct H.
Qed.

Lemma constants_clear :
  forallb (fun v =>
             plain v && forallb (fun p => negb (overlaps p v)) recognized)
    constants = true.
Proof. vm_compute. reflexivity. Qed.

Lemma inert_plain m : inert m = true -> mem dollar m = false.
Proof.
  unfold inert, plain. intros H. apply andb_prop in H as [H _].
  now apply negb_true_iff in H.
Qed.

Lemma inert_clear m p :
  inert m = true -> In p recognized ->
  collides m p = false /\ collides p m = false.
Proof.
  unfold inert. intros H Hp. apply andb_prop in H as [_ H].
  rewrite forallb_forall in H. specialize (H p Hp).
  apply negb_true_iff in H. unfold overlaps in H.
  apply orb_false_elim in H as [H1 H2]. now split.
Qed.

Lemma constant_clear v p :
  In v constants -> In p recognized ->
  mem dollar v = false /\ collides v p = false /\ collides p v = false.
Proof.
  intros Hv Hp. pose proof constants_clear as H.
  rewrite forallb_forall in H. specialize (H v Hv).
  apply andb_prop in H as [H1 H2]. unfold plain in H1.
  apply negb_true_iff in H1. rewrite forallb_forall in H2.
  specialize (H2 p Hp). apply negb_true_iff in H2. unfold overlaps in H2.
  apply orb_false_elim in H2 as [H2 H3]. now repeat split.
Qed.

Lemma context_plain m p v :
  inert m = true -> In (p, v) (context m) -> mem dollar v = false.
Proof.
  intros Hm H. apply context_entry in H as [Hp [->|Hv]].
  - now apply inert_plain.
  - now apply (constant_clear v p).
Qed.

Lemma context_nonempty m p v :
  In (p, v) (context m) -> p <> EmptyString.
Proof.
  intros H. apply context_entry in H as [Hp _]. cbn in Hp.
  repeat (destruct Hp as [Hp|Hp]; [subst p; discriminate|]). destruct Hp.
Qed.

Lemma context_clear m p v p' v' :
  inert m = true -> In (p, v) (context m) -> In (p', v') (context m) ->
  collides v p' = false /\ collides p' v = false.
Proof.
  intros Hm H H'. apply context_entry in H as [_ [->|Hv]];
    apply context_entry in H' as [Hp' _].
  - now apply inert_clear.
  - destruct (constant_clear v p' Hv Hp') as (_ & H1 & H2). now split.
Qed.

Lemma context_apart m : patterns_apart (context m) = true.
Proof. reflexivity. Qed.

Lemma scan_absent p v b s :
  occurs p s = false -> scan p v 0 b s = s.
Proof.
  revert b; induction s as [|c s IH]; intros b H; [reflexivity|].
  cbn [occurs] in H. apply orb_false_elim in H as [H1 H2].
  cbn [scan]. rewrite H1. f_equal. now apply IH.
Qed.

(** A template in which no recognized placeholder occurs is rendered
    as it is, for every user message, one with [$] sequences
    included. *)
Lemma render_without_placeholders t m :
  forallb (fun p => negb (occurs p t)) recognized = true ->
  render t m = t.
Proof.
  intros H. rewrite forallb_forall in H.
  assert (Hp : forall p, In p recognized -> occurs p t = false).
  { intros p Hin. apply negb_true_iff. now apply H. }
  unfold render, replace_all.
  rewrite (scan_absent ph_user_preferences) by (apply Hp; cbn; tauto).
  rewrite (scan_absent ph_product_data) by (apply Hp; cbn; tauto).
  rewrite (scan_absent ph_size_chart) by (apply Hp; cbn; tauto).
  rewrite (scan_absent ph_user_measurements) by (apply Hp; cbn; tauto).
  rewrite (scan_absent ph_order_number) by (apply Hp; cbn; tauto).
  rewrite (scan_absent ph_order_status_data) by (apply Hp; cbn; tauto).
  reflexivity.
Qed.

(** The end-to-end scenario of the specification: [{{name}}] is not in
    the fixed mapping. *)
Example render_greet : render "Hello {{name}}" "World" = "Hello {{name}}".
Proof. reflexivity. Qed.

(** What [replace] makes of the [$] sequences of a user message. *)
Example render_dollar :
  render "a{{name}}{{user_preferences}}b" "[$`|$&|$'|$$|$1]"
  = "a{{name}}[a{{name}}|{{user_preferences}}|b|$|$1]b".
Proof. vm_compute. reflexivity. Qed.

(** A user message that joins the two halves of a placeholder. *)
Example render_join : render "{{order{{user_preferences}}number}}" "_" = "_".
Proof. vm_compute. reflexivity. Qed.

(** C1 (as amended): for a user message without [$] that cannot
    overlap a recognized placeholder, the rendering of [callGeminiApi]
    is the single pass of the specification: every occurrence of each
    recognized placeholder is replaced by its mapped value, and every
    other character of the template, so every token that is not
    recognized, is copied unchanged. *)
Theorem render_is_single_pass (promptTemplate userMessage : string) :
  inert userMessage = true ->
  render promptTemplate userMessage = render_spec promptTemplate userMessage.
Proof.
  intros Hm. rewrite render_chain. unfold render_spec.
  apply chain_one_pass.
  - intros p v. now apply context_plain.
  - intros p v. apply context_nonempty.
  - intros p v p' v'. now apply context_clear.
  - apply context_apart.
Qed.

Lemma render_is_single_pass_witness :
  inert "World" = true /\
  render "Hello {{name}}, {{user_preferences}}!" "World"
  = render_spec "Hello {{name}}, {{user_preferences}}!" "World".
Proof.
  split; [reflexivity|].
  apply (render_is_single_pass "Hello {{name}}, {{user_preferences}}!" "World").
  reflexivity.
Defined.

(** C1 (as stated) fails: the one occurrence of [{{user_preferences}}]
    is not replaced by its mapped value, the user message, when the
    message is itself a placeholder that a later replacement rewrites. *)
Lemma render_value_rewritten :
  render "{{user_preferences}}" "{{product_data}}" <> "{{product_data}}".
Proof. vm_compute. discriminate. Qed.

(** C2 (as amended): for a user message without [$] that cannot
    overlap a recognized placeholder, a substituted value goes through
    the whole chain as it is, and rendering a second time with the same
    message gives the same string. *)
Theorem render_not_recursive_idempotent (promptTemplate userMessage : string) :
  inert userMessage = true ->
  (forall p v s, In (p, v) (context userMessage) ->
     render (v ++ s) userMessage = v ++ render s userMessage)
  /\ render (render promptTemplate userMessage) userMessage
     = render promptTemplate userMessage.
Proof.
  intros Hm. split.
  - intros p v s Hin. rewrite !render_chain.
    apply (chain_pass (context userMessage)).
    + intros p' v'. now apply context_plain.
    + apply incl_refl.
    + intros p' v' Hin'. now apply (context_clear userMessage p v p' v').
  - rewrite !render_chain. apply chain_idempotent.
    + intros p v. now apply context_plain.
    + intros p v. apply context_nonempty.
    + intros p v p' v'. now apply context_clear.
Qed.

Lemma render_not_recursive_idempotent_witness :
  inert "red dress, size M" = true /\
  render (render "Find {{product_data}} for {{user_preferences}}"
            "red dress, size M") "red dress, size M"
  = render "Find {{product_data}} for {{user_preferences}}"
      "red dress, size M".
Proof.
  split; [reflexivity|].
  apply (render_not_recursive_idempotent
           "Find {{product_data}} for {{user_preferences}}"
           "red dress, size M").
  reflexivity.
Defined.

(** C2 (as stated) fails: a message that is a placeholder is scanned
    again, so a second rendering changes the result of the first. *)
Lemma render_twice_differs :
  render (render "{{order_number}}" "{{size_chart}}") "{{size_chart}}"
  <> render "{{order_number}}" "{{size_chart}}".
Proof. vm_compute. discriminate. Qed.

End TemplateFacts.

(** ** The handlers *)

Module WorkerFacts.
Import JS Net Worker Behaviour Samples.

Lemma fetchPrompts_cases owner repo path w t :
  fetched_prompts owner repo path w t
    (fst (fetchPromptsFromGitHub owner repo path w t))
    (snd (fetchPromptsFromGitHub owner repo path w t)).
Proof.
  unfold fetchPromptsFromGitHub, bind, fetch.
  destruct (w t (metadata_request owner repo path)) as [e|metaResp] eqn:E1.
  { now apply FetchedNoMetadata. }
  destruct (ok metaResp) eqn:Eok; cbn [negb].
  2:{ now apply FetchedNoMetadata. }
  unfold json_parse.
  destruct (parsed (payload metaResp)) as [meta|] eqn:Ep.
  2:{ now apply FetchedNoMetadata. }
  unfold ret, lift.
  destruct (get meta "sha") as [sha|e] eqn:Esha.
  2:{ now apply FetchedNoMetadata. }
  destruct (get meta "download_url") as [dl|e] eqn:Edl.
  2:{ now apply FetchedNoMetadata. }
  destruct (w _ (download_request dl)) as [e|contentResp] eqn:E2.
  { eapply FetchedNoContent; eauto. discriminate. }
  destruct (ok contentResp) eqn:Eok2; cbn [negb].
  - eapply FetchedBoth; eauto.
  - eapply FetchedNoContent; eauto. intros r Hr. now inversion Hr; subst.
Qed.

(** Case analysis on the call of [fetchPromptsFromGitHub] made by a
    handler with the environment [e], from the trace [t]. *)
Ltac fetch_prompts_cases w t e :=
  let o := fresh "o" in
  let t1 := fresh "t" in
  let Hf := fresh "Hf" in
  pose proof (fetchPrompts_cases (GITHUB_OWNER e) (GITHUB_REPO e)
                (PROMPTS_PATH e) w t) as Hf;
  destruct (fetchPromptsFromGitHub (GITHUB_OWNER e) (GITHUB_REPO e)
              (PROMPTS_PATH e) w t) as [o t1];
  cbn [fst snd] in Hf; inversion Hf; subst; clear Hf.

(** No event of the trace in [Hin] is a request with the method of
    [Hm]. *)
Ltac not_in_trace Hin Hm :=
  cbn [In app] in Hin;
  repeat (destruct Hin as [Hin|Hin];
          [inversion Hin; subst; cbn in Hm; discriminate|]);
  try destruct Hin.

(** C3: the [PUT] of [handleSavePrompts] is the third and last request
    of the invocation, right after the two requests of
    [fetchPromptsFromGitHub]; it goes to the contents URL, and the
    [sha] member of its body is the [sha] member of the metadata that
    the first of them returned; nothing of the inbound request and
    nothing from an earlier invocation enters it. *)
Theorem save_uses_fetched_sha rt req e w out t :
  run (handleSavePrompts rt req e) w = (out, t) ->
  forall r res, In (r, res) t -> method r = "PUT" ->
  exists metaResp meta sha dl dlRes encoded,
    t = [(metadata_request (GITHUB_OWNER e) (GITHUB_REPO e) (PROMPTS_PATH e),
          Resolved metaResp);
         (download_request dl, dlRes); (r, res)]
    /\ w [] (metadata_request (GITHUB_OWNER e) (GITHUB_REPO e) (PROMPTS_PATH e))
       = Resolved metaResp
    /\ parsed (payload metaResp) = Some meta
    /\ get meta "sha" = Ok sha
    /\ r = commit_request e encoded sha
    /\ url r
       = VStr ("https://api.github.com/repos/" ++ interp (GITHUB_OWNER e)
                 ++ "/" ++ interp (GITHUB_REPO e) ++ "/contents/"
                 ++ interp (PROMPTS_PATH e))
    /\ body r
       = Some (VObj [("message", VStr "Update prompts.json from Admin Panel");
                     ("content", VStr encoded);
                     ("sha", sha)]).
Proof.
  unfold run, handleSavePrompts. intros H r res Hin Hm.
  destruct (configured (GITHUB_PAT e)); cbn [negb] in H.
  2:{ inversion H; subst. destruct Hin. }
  unfold try_catch, bind, request_json in H.
  destruct (json_body req) as [body|]; cbn [ret throw] in H.
  2:{ inversion H; subst. destruct Hin. }
  fetch_prompts_cases w (@nil event) e.
  1,2: inversion H; subst; not_in_trace Hin Hm.
  cbn [snd] in H. unfold encode_content in H.
  destruct (btoa rt (stringify_pretty rt body)) as [encoded|];
    cbn [ret throw] in H.
  2:{ inversion H; subst. not_in_trace Hin Hm. }
  unfold fetch in H. cbn [app] in H.
  match type of H with
  | context [w ?tr ?rq] => destruct (w tr rq) as [err|resp] eqn:Eput
  end.
  - inversion H; subst. cbn [In app] in Hin.
    destruct Hin as [Hin|[Hin|[Hin|[]]]]; inversion Hin; subst;
      try (cbn in Hm; discriminate).
    eexists _, _, _, _, _, _. repeat split; eauto.
  - destruct (ok resp); cbn [negb ret throw] in H; inversion H; subst;
      cbn [In app] in Hin;
      (destruct Hin as [Hin|[Hin|[Hin|[]]]]; inversion Hin; subst;
       try (cbn in Hm; discriminate));
      eexists _, _, _, _, _, _; repeat split; eauto.
Qed.

Lemma save_uses_fetched_sha_witness :
  exists metaResp meta sha dl dlRes encoded,
    snd (run (handleSavePrompts sample_runtime (mkInbound (Some (VArr [])))
                sample_env)
           (scripted [Resolved metadata_ok; Resolved document_ab;
                      Resolved commit_accepted]))
    = [(metadata_request (GITHUB_OWNER sample_env) (GITHUB_REPO sample_env)
          (PROMPTS_PATH sample_env), Resolved metaResp);
       (download_request dl, dlRes);
       (commit_request sample_env "W10=" (VStr "T1"), Resolved commit_accepted)]
    /\ scripted [Resolved metadata_ok; Resolved document_ab;
                 Resolved commit_accepted] []
         (metadata_request (GITHUB_OWNER sample_env) (GITHUB_REPO sample_env)
            (PROMPTS_PATH sample_env))
       = Resolved metaResp
    /\ parsed (payload metaResp) = Some meta
    /\ get meta "sha" = Ok sha
    /\ commit_request sample_env "W10=" (VStr "T1")
       = commit_request sample_env encoded sha
    /\ url (commit_request sample_env "W10=" (VStr "T1"))
       = VStr ("https://api.github.com/repos/"
                 ++ interp (GITHUB_OWNER sample_env)
                 ++ "/" ++ interp (GITHUB_REPO sample_env) ++ "/contents/"
                 ++ interp (PROMPTS_PATH sample_env))
    /\ body (commit_request sample_env "W10=" (VStr "T1"))
       = Some (VObj [("message", VStr "Update prompts.json from Admin Panel");
                     ("content", VStr encoded);
                     ("sha", sha)]).
Proof.
  apply (save_uses_fetched_sha sample_runtime (mkInbound (Some (VArr [])))
           sample_env
           (scripted [Resolved metadata_ok; Resolved document_ab;
                      Resolved commit_accepted])
           (fst (run (handleSavePrompts sample_runtime
                        (mkInbound (Some (VArr []))) sample_env)
                   (scripted [Resolved metadata_ok; Resolved document_ab;
                              Resolved commit_accepted])))
           _ (surjective_pairing _)
           (commit_request sample_env "W10=" (VStr "T1"))
           (Resolved commit_accepted)).
  - vm_compute. right. right. left. reflexivity.
  - reflexivity.
Defined.

(** The events of the trace in [Hin], one goal each. *)
Ltac trace_cases Hin :=
  cbn [In app] in Hin;
  repeat (destruct Hin as [Hin|Hin]; [inversion Hin; subst|]);
  try destruct Hin.




(** *** [handleChat] *)

(** C7: for a chat request in whose body [message] or [function_id]
    is missing or the empty string, [handleChat] answers 400.  The
    answer does not depend on the remote services, so not on whether
    the document has the identifier, and the trace is empty: neither
    the store nor the completion backend gets a request. *)
Theorem chat_validates_first req e w parsed message function_id :
  json_body req = Some parsed ->
  get parsed "message" = Ok message ->
  get parsed "function_id" = Ok function_id ->
  missing_or_empty message \/ missing_or_empty function_id ->
  run (handleChat req e) w
  = (Ok (json_response 400
           [("error", VStr "Missing 'message' or 'function_id'")]), []).
Proof.
  intros Hb Hm Hf Hmiss.
  unfold run, handleChat, try_catch, bind, request_json, lift.
  rewrite Hb. cbn [ret]. rewrite Hm, Hf.
  assert (Ht : negb (truthy message) || negb (truthy function_id) = true).
  { destruct Hmiss as [[->| ->]|[->| ->]]; cbn;
      try reflexivity; apply orb_true_r. }
  rewrite Ht. reflexivity.
Qed.

Lemma chat_validates_first_witness :
  run (handleChat
         (mkInbound (Some (VObj [("message", VStr EmptyString);
                                 ("function_id", VStr "x")])))
         sample_env)
      (scripted [Resolved metadata_ok; Resolved document_ab])
  = (Ok (json_response 400
           [("error", VStr "Missing 'message' or 'function_id'")]), []).
Proof.
  apply (chat_validates_first _ sample_env _
           (VObj [("message", VStr EmptyString); ("function_id", VStr "x")])
           (VStr EmptyString) (VStr "x")).
  - reflexivity.
  - reflexivity.
  - reflexivity.
  - left. right. reflexivity.
Defined.

(** A body that is not an object is another matter: for the body
    [null] the reading of the members fails, and the answer is 500. *)
Lemma chat_null_body_is_500 :
  exists resp,
    fst (run (handleChat null_request sample_env) (scripted [])) = Ok resp
    /\ status resp = 500%Z.
Proof. eexists. split; [vm_compute; reflexivity|reflexivity]. Qed.

Lemma find_first_none function_id items :
  no_prompt_with function_id items ->
  find_first
    (fun p => match get p "id" with
              | Ok id => Ok (strict_eq id function_id)
              | Throw e => Throw e
              end) items
  = Ok VUndef.
Proof.
  induction 1 as [|p items [Hn Hid] _ IH]; [reflexivity|].
  cbn [find_first].
  destruct (get p "id") as [id|err] eqn:E.
  - now rewrite (Hid id eq_refl).
  - destruct p; cbn in Hn, E; discriminate.
Qed.

Lemma fetched_gets owner repo path w t o t' :
  fetched_prompts owner repo path w t o t' ->
  exists t1, t' = (t ++ t1)%list
             /\ Forall (fun r => method r = "GET") (requests t1).
Proof.
  intros H. inversion H; subst.
  - eexists. split; [reflexivity|]. repeat constructor.
  - eexists. split; [symmetry; apply app_assoc|]. repeat constructor.
  - eexists. split; [symmetry; apply app_assoc|]. repeat constructor.
Qed.

(** C6: for a request with a message and a [function_id] that is a
    string, in a deployment with the completion key, when the document
    is fetched and is an array in which no element has that
    identifier, [handleChat] answers 404 and names the identifier; the
    trace of the invocation is the trace of the fetch of the document,
    which has [GET] requests only: the completion backend gets no
    request. *)
Theorem chat_unknown_function req e w parsed message name
    document sha t items :
  json_body req = Some parsed ->
  get parsed "message" = Ok message ->
  get parsed "function_id" = Ok (VStr name) ->
  truthy message = true -> name <> EmptyString ->
  configured (GEMINI_API_KEY e) = true ->
  fetchPromptsFromGitHub (GITHUB_OWNER e) (GITHUB_REPO e) (PROMPTS_PATH e)
    w [] = (Ok (document, sha), t) ->
  Net.parsed document = Some (VArr items) ->
  no_prompt_with (VStr name) items ->
  run (handleChat req e) w
  = (Ok (json_response 404
           [("error", VStr ("Function ID '" ++ name ++ "' not found."))]), t)
  /\ Forall (fun r => method r = "GET") (requests t).
Proof.
  intros Hb Hm Hf Htm Hname Hkey Hfetch Hdoc Hnone. split.
  - assert (Htf : truthy (VStr name) = true)
      by (cbn; destruct name; [congruence|reflexivity]).
    unfold run, handleChat, try_catch, bind, request_json, lift.
    rewrite Hb. cbn [ret]. rewrite Hm, Hf, Htm, Htf, Hkey. cbn [negb orb].
    rewrite Hfetch. cbn [fst]. unfold json_parse. rewrite Hdoc.
    cbn [ret find_prompt]. unfold lift.
    rewrite (find_first_none _ _ Hnone). reflexivity.
  - pose proof (fetchPrompts_cases (GITHUB_OWNER e) (GITHUB_REPO e)
                  (PROMPTS_PATH e) w []) as H.
    rewrite Hfetch in H. cbn [fst snd] in H.
    apply fetched_gets in H as (t1 & -> & H). exact H.
Qed.

Lemma chat_unknown_function_witness :
  run (handleChat (chat_request "World" "c") sample_env)
      (scripted [Resolved metadata_ok; Resolved document_ab])
  = (Ok (json_response 404
           [("error", VStr "Function ID 'c' not found.")]),
     [(metadata_request (Some "shop") (Some "assistant") (Some "prompts.json"),
       Resolved metadata_ok);
      (download_request (VStr raw_url), Resolved document_ab)]).
Proof.
  apply (chat_unknown_function (chat_request "World" "c") sample_env
           (scripted [Resolved metadata_ok; Resolved document_ab])
           (VObj [("message", VStr "World"); ("function_id", VStr "c")])
           (VStr "World") "c" (payload document_ab) (VStr "T1") _
           [prompt "a" "A {{product_data}}"; prompt "b" "B {{size_chart}}"]);
    try reflexivity.
  - discriminate.
  - repeat constructor; intros id H; inversion H; reflexivity.
Defined.

(** C8 (as amended): [fetchPromptsFromGitHub] makes no difference
    between a missing file and another failure of the store.  When the
    store answers the metadata request with a status outside 200-299,
    404 included, or does not answer, [handleChat] answers 500; the
    error carries the status text of the store, or the text of the
    network error, and not the status code. *)
Theorem chat_store_failure_is_500 req e w parsed message function_id :
  json_body req = Some parsed ->
  get parsed "message" = Ok message ->
  get parsed "function_id" = Ok function_id ->
  truthy message = true -> truthy function_id = true ->
  configured (GEMINI_API_KEY e) = true ->
  (forall r,
     w [] (metadata_request (GITHUB_OWNER e) (GITHUB_REPO e) (PROMPTS_PATH e))
     = Resolved r ->
     ok r = false ->
     run (handleChat req e) w
     = (Ok (json_response 500
              [("error", VStr ("Internal Server Error during chat processing: "
                                 ++ "Failed to fetch prompts metadata from GitHub: "
                                 ++ statusText r))]),
        [(metadata_request (GITHUB_OWNER e) (GITHUB_REPO e) (PROMPTS_PATH e),
          Resolved r)]))
  /\ (forall err,
       w [] (metadata_request (GITHUB_OWNER e) (GITHUB_REPO e) (PROMPTS_PATH e))
       = Rejected err ->
       run (handleChat req e) w
       = (Ok (json_response 500
                [("error", VStr ("Internal Server Error during chat processing: "
                                   ++ JS.message err))]),
          [(metadata_request (GITHUB_OWNER e) (GITHUB_REPO e) (PROMPTS_PATH e),
            Rejected err)])).
Proof.
  intros Hb Hm Hf Htm Htf Hkey. split.
  - intros r Hw Hok.
    unfold run, handleChat, try_catch, bind, request_json, lift.
    rewrite Hb. cbn [ret]. rewrite Hm, Hf, Htm, Htf, Hkey. cbn [negb orb].
    unfold fetchPromptsFromGitHub, bind, fetch. rewrite Hw, Hok.
    reflexivity.
  - intros err Hw.
    unfold run, handleChat, try_catch, bind, request_json, lift.
    rewrite Hb. cbn [ret]. rewrite Hm, Hf, Htm, Htf, Hkey. cbn [negb orb].
    unfold fetchPromptsFromGitHub, bind, fetch. rewrite Hw.
    reflexivity.
Qed.

Lemma chat_store_failure_is_500_witness :
  run (handleChat (chat_request "World" "a") sample_env)
      (scripted [Resolved metadata_missing])
  = (Ok (json_response 500
           [("error", VStr ("Internal Server Error during chat processing: "
                              ++ "Failed to fetch prompts metadata from GitHub: "
                              ++ "Not Found"))]),
     [(metadata_request (Some "shop") (Some "assistant") (Some "prompts.json"),
       Resolved metadata_missing)]).
Proof.
  apply (proj1 (chat_store_failure_is_500 (chat_request "World" "a") sample_env
           (scripted [Resolved metadata_missing])
           (VObj [("message", VStr "World"); ("function_id", VStr "a")])
           (VStr "World") (VStr "a")
           eq_refl eq_refl eq_refl eq_refl eq_refl eq_refl)
           metadata_missing); reflexivity.
Defined.

(** C8 (as stated) fails: the store answers 404 for the prompts file,
    and the chat path answers 500, not 404. *)
Lemma chat_missing_file_is_500 :
  exists resp,
    fst (run (handleChat (chat_request "World" "a") sample_env)
           (scripted [Resolved metadata_missing])) = Ok resp
    /\ status resp = 500%Z /\ status resp <> 404%Z.
Proof.
  eexists. split; [vm_compute; reflexivity|]. split; [reflexivity|discriminate].
Qed.

(** The end-to-end scenario of the specification: the prompt sent to
    the completion backend is the template, unchanged. *)
Example chat_greet :
  run (handleChat (chat_request "World" "greet") sample_env)
      (scripted [Resolved metadata_ok; Resolved document_greet;
                 Resolved completion_hi])
  = (Ok (json_response 200 [("response", VStr "Hi")]),
     [(metadata_request (Some "shop") (Some "assistant") (Some "prompts.json"),
       Resolved metadata_ok);
      (download_request (VStr raw_url), Resolved document_greet);
      (gemini_request (Some "gemini-key") "Hello {{name}}",
       Resolved completion_hi)]).
Proof. vm_compute. reflexivity. Qed.

(** *** [callGeminiApi] *)

(** Without candidates the answer is the fallback message. *)
Lemma extract_text_no_candidates json candidates w t :
  get json "candidates" = Ok candidates ->
  truthy candidates = false ->
  extract_text json w t = (Ok (VStr fallback_message), t).
Proof.
  intros Hc Ht. unfold extract_text, bind, lift. now rewrite Hc, Ht.
Qed.

(** C5 fails on the code: the completion backend answers 200 with the
    well-formed body [{"candidates":[{"content":{"parts":[]}}]}], which
    has no text segment, and [callGeminiApi] throws a [TypeError]
    instead of returning the fallback message. *)
Lemma completion_without_parts_throws :
  exists msg,
    fst (run (callGeminiApi (VStr "Recommend for {{user_preferences}}")
                (VStr "a red dress") (Some "gemini-key"))
           (scripted [Resolved completion_no_parts]))
    = Throw (mkError TypeError msg).
Proof. eexists. vm_compute. reflexivity. Qed.

(** *** [handleTelegramWebhook] *)

Lemma bind_ok_inv {A B} (m : M A) (k : A -> M B) w t b t' :
  bind m k w t = (Ok b, t') ->
  exists a t1, m w t = (Ok a, t1) /\ k a w t1 = (Ok b, t').
Proof.
  unfold bind. destruct (m w t) as [[a|err] t1]; intros H; [eauto|discriminate].
Qed.

Lemma ret_ok_inv {A} (a b : A) w t t' :
  ret a w t = (Ok b, t') -> a = b /\ t = t'.
Proof. unfold ret. intros H. inversion H. auto. Qed.

(** The [try] block of the webhook returns nothing but 200 [OK]. *)
Lemma webhook_try_ok rt req e w t resp t' :
  (update <- request_json req ;;
   message <- lift (get update "message") ;;
   if negb (truthy message) then ret (mkResp 200 (Text "OK"))
   else
     text <- lift (get message "text") ;;
     if negb (truthy text) then ret (mkResp 200 (Text "OK"))
     else
       chat <- lift (get message "chat") ;;
       chatId <- lift (get chat "id") ;;
       userText <- lift (trim_text rt text) ;;
       chatResponse <-
         handleChat
           (mkInbound
              (Some (reparse (VObj [("message", userText);
                                    ("function_id",
                                     VStr "product_recommendation")]))))
           e ;;
       chatJson <- response_json chatResponse ;;
       err <- lift (get chatJson "error") ;;
       responseText <-
         (if truthy err then
            errorText <- lift (to_string err) ;;
            ret (VStr ("Произошла ошибка: " ++ errorText))
          else lift (get chatJson "response")) ;;
       sendTelegramMessage chatId responseText (TELEGRAM_BOT_TOKEN e) ;;;
       ret (mkResp 200 (Text "OK")))%js w t = (Ok resp, t') ->
  resp = mkResp 200 (Text "OK").
Proof.
  intros H.
  apply bind_ok_inv in H as (update & t1 & _ & H).
  apply bind_ok_inv in H as (message & t2 & _ & H).
  destruct (negb (truthy message)); [now apply ret_ok_inv in H as [<- _]|].
  apply bind_ok_inv in H as (text & t3 & _ & H).
  destruct (negb (truthy text)); [now apply ret_ok_inv in H as [<- _]|].
  repeat (apply bind_ok_inv in H as (? & ? & _ & H)).
  now apply ret_ok_inv in H as [<- _].
Qed.

(** Whatever fails inside the [try] block, the [catch] block fails on
    its first step, the reading of [update]: with the bot token
    configured the handler returns 200 [OK] or throws, and never
    returns the response 500 [Error]. *)
Lemma webhook_never_reports_failure rt req e w :
  configured (TELEGRAM_BOT_TOKEN e) = true ->
  global_update rt = None ->
  fst (run (handleTelegramWebhook rt req e) w) = Ok (mkResp 200 (Text "OK"))
  \/ fst (run (handleTelegramWebhook rt req e) w)
     = Throw (mkError ReferenceError "update is not defined").
Proof.
  intros Htok Hglobal. unfold run, handleTelegramWebhook.
  rewrite Htok. cbn [negb]. unfold try_catch.
  match goal with
  | |- context [match ?body w [] with _ => _ end] =>
      destruct (body w []) as [[resp|err] t1] eqn:E
  end.
  - left. apply webhook_try_ok in E. now subst.
  - right. unfold webhook_catch, bind, update_in_catch.
    rewrite Hglobal. reflexivity.
Qed.

(** C4 fails on the code: the update
    [{"message":{"chat":{"id":7},"text":5}}] makes [message.text.trim]
    fail inside the [try] block; the [catch] block then throws a
    [ReferenceError], because [update] is not in its scope.  No message
    goes to chat 7, no response 500 [Error] is returned, and the
    exception leaves the handler. *)
Lemma webhook_failure_escapes :
  run (handleTelegramWebhook sample_runtime update_bad_text sample_env)
      (scripted [])
  = (Throw (mkError ReferenceError "update is not defined"), []).
Proof. vm_compute. reflexivity. Qed.

(** C10 (as amended): with the bot token configured, for an update
    whose body is a JSON value other than [null], so that its members
    can be read, and that has no message or no message text, the
    handler returns 200 [OK] and makes no request: it reads no
    document, calls no completion backend and sends no Telegram
    message. *)
Theorem webhook_ignores_non_text rt req e w update message :
  configured (TELEGRAM_BOT_TOKEN e) = true ->
  json_body req = Some update ->
  get update "message" = Ok message ->
  truthy message = false
  \/ (exists text, get message "text" = Ok text /\ truthy text = false) ->
  run (handleTelegramWebhook rt req e) w = (Ok (mkResp 200 (Text "OK")), []).
Proof.
  intros Htok Hb Hm Hno. unfold run, handleTelegramWebhook.
  rewrite Htok. cbn [negb].
  unfold try_catch, bind, request_json, lift. rewrite Hb. cbn [ret].
  rewrite Hm. destruct (truthy message) eqn:Et; cbn [negb]; [|reflexivity].
  destruct Hno as [Hno|(text & Htext & Hfalse)]; [discriminate|].
  rewrite Htext, Hfalse. reflexivity.
Qed.

Lemma webhook_ignores_non_text_witness :
  run (handleTelegramWebhook sample_runtime update_no_message sample_env)
      (scripted [])
  = (Ok (mkResp 200 (Text "OK")), []).
Proof.
  apply (webhook_ignores_non_text sample_runtime update_no_message sample_env
           (scripted []) (VObj [("update_id", VNum 1)]) VUndef).
  - reflexivity.
  - reflexivity.
  - reflexivity.
  - left. reflexivity.
Defined.

(** C10 (as stated) fails: the body [null] parses as JSON and has no
    message, and the handler does not return 200 [OK]. *)
Lemma webhook_null_update_not_ok :
  fst (run (handleTelegramWebhook sample_runtime null_request sample_env)
         (scripted []))
  <> Ok (mkResp 200 (Text "OK")).
Proof. vm_compute. discriminate. Qed.

End WorkerFacts.

(** ** More on the rendering chain *)

Module TemplateMore.
Import Str Replace Template StrFacts ReplaceFacts TemplateFacts.

Lemma render_without_placeholders_witness :
  render "Say hello to {{name}} for $1" "[$`|$&|$']"
  = "Say hello to {{name}} for $1".
Proof.
  apply (render_without_placeholders "Say hello to {{name}} for $1"
           "[$`|$&|$']").
  vm_compute. reflexivity.
Defined.

Lemma context_patterns m : map fst (context m) = recognized.
Proof. reflexivity. Qed.

(** For a user message that cannot interfere with the placeholders,
    the rendered prompt has no recognized placeholder left in it,
    whatever the template. *)
Theorem render_leaves_no_placeholder t m p :
  inert m = true -> In p recognized ->
  occurs p (render t m) = false.
Proof.
  intros Hm Hp. rewrite render_chain.
  apply (chain_free (context m)).
  - intros q v. now apply context_plain.
  - intros q v. apply context_nonempty.
  - apply incl_refl.
  - intros q v Hin. apply context_entry in Hin as [_ [->|Hv]].
    + now apply inert_clear.
    + destruct (constant_clear v p Hv Hp) as (_ & H1 & H2). now split.
  - right. now rewrite context_patterns.
Qed.

Lemma render_leaves_no_placeholder_witness :
  occurs "{{size_chart}}"
    (render "{{size_{{size_chart}}chart}} and {{size_chart}}" "red dress")
  = false.
Proof.
  apply (render_leaves_no_placeholder
           "{{size_{{size_chart}}chart}} and {{size_chart}}" "red dress"
           "{{size_chart}}").
  - reflexivity.
  - cbn. tauto.
Defined.

Lemma no_brace_no_collision c p x :
  mem c x = false -> collides (String c p) x = false.
Proof.
  induction x as [|b x IH]; intros H; [reflexivity|].
  cbn [mem] in H. apply orb_false_elim in H as [Hb Hx].
  cbn [collides]. rewrite (IH Hx), orb_false_r.
  unfold comparable. cbn [starts_with].
  rewrite Hb, Ascii.eqb_sym, Hb. reflexivity.
Qed.

(** For a user message without [$], a piece of text without an
    opening brace at the head of a template is copied as it is, and
    the rest of the template is rendered as if the piece were not
    there. *)
Theorem render_copies_text x s m :
  plain m = true -> mem "{"%char x = false ->
  render (x ++ s) m = x ++ render s m.
Proof.
  intros Hm Hx. rewrite !render_chain.
  apply (chain_pass (context m)).
  - intros p v Hin. apply context_entry in Hin as [Hp [->|Hv]].
    + unfold plain in Hm. now apply negb_true_iff in Hm.
    + now apply (constant_clear v p).
  - apply incl_refl.
  - intros p v Hin. apply context_entry in Hin as [Hp _]. cbn in Hp.
    repeat (destruct Hp as [Hp|Hp];
            [subst p; now apply no_brace_no_collision|]).
    destruct Hp.
Qed.

Lemma render_copies_text_witness :
  render ("Dear customer, " ++ "see {{size_chart}}") "{{product_data}}"
  = "Dear customer, " ++ render "see {{size_chart}}" "{{product_data}}".
Proof.
  apply (render_copies_text "Dear customer, " "see {{size_chart}}"
           "{{product_data}}"); reflexivity.
Defined.

(** For a user message that cannot interfere with the placeholders, a
    recognized placeholder at the head of a template is replaced by
    its mapped value, and the rest of the template is rendered on its
    own.  The three placeholders [{{user_preferences}}],
    [{{user_measurements}}] and [{{order_number}}] all give the user
    message. *)
Theorem render_head_placeholder p v s m :
  inert m = true -> In (p, v) (context m) ->
  render (p ++ s) m = v ++ render s m.
Proof.
  intros Hm Hin. rewrite !render_chain.
  apply (chain_match (context m)).
  - intros q u. now apply context_plain.
  - intros q u. apply context_nonempty.
  - intros q u q' u'. now apply context_clear.
  - apply incl_refl.
  - apply context_apart.
  - exact Hin.
Qed.

Lemma render_head_placeholder_witness :
  render ("{{order_number}}" ++ " is on its way") "A-17"
  = "A-17" ++ render " is on its way" "A-17".
Proof.
  apply (render_head_placeholder "{{order_number}}" "A-17"
           " is on its way" "A-17").
  - reflexivity.
  - cbn. tauto.
Defined.

End TemplateMore.

(** ** The requests a handler makes *)

Module TraceFacts.
Import JS Net Worker Behaviour.

Section Emits.

Variable P : http_request -> Prop.

Lemma emits_ret {A} (a : A) : emits P 0 (ret a).
Proof.
  intros w t. exists []. cbn. rewrite app_nil_r. auto.
Qed.

Lemma emits_throw {A} (e : error) : emits P 0 (@throw A e).
Proof.
  intros w t. exists []. cbn. rewrite app_nil_r. auto.
Qed.

Lemma emits_lift {A} (o : outcome A) : emits P 0 (lift o).
Proof.
  intros w t. exists []. cbn. rewrite app_nil_r. auto.
Qed.

Lemma emits_weaken {A} n n' (m : M A) :
  (n <= n')%nat -> emits P n m -> emits P n' m.
Proof.
  intros Hn H w t. destruct (H w t) as (t' & H1 & H2 & H3).
  exists t'. repeat split; auto. lia.
Qed.

Lemma emits_fetch req : P req -> emits P 1 (fetch req).
Proof.
  intros H w t. exists [(req, w t req)]. unfold fetch. cbn [snd].
  repeat split; auto.
Qed.

Lemma emits_bind {A B} n1 n2 (m : M A) (k : A -> M B) :
  emits P n1 m -> (forall a, emits P n2 (k a)) ->
  emits P (n1 + n2) (bind m k).
Proof.
  intros Hm Hk w t. unfold bind.
  destruct (Hm w t) as (t1 & H1 & H2 & H3).
  destruct (m w t) as [[a|err] t']; cbn [snd] in H1; subst t'.
  - destruct (Hk a w (t ++ t1)%list) as (t2 & H4 & H5 & H6).
    exists (t1 ++ t2)%list. rewrite H4, app_assoc.
    repeat split; [now apply Forall_app|].
    rewrite length_app. lia.
  - exists t1. cbn [snd]. repeat split; auto. lia.
Qed.

Lemma emits_try {A} n1 n2 (m : M A) (h : error -> M A) :
  emits P n1 m -> (forall err, emits P n2 (h err)) ->
  emits P (n1 + n2) (try_catch m h).
Proof.
  intros Hm Hh w t. unfold try_catch.
  destruct (Hm w t) as (t1 & H1 & H2 & H3).
  destruct (m w t) as [[a|err] t']; cbn [snd] in H1; subst t'.
  - exists t1. cbn [snd]. repeat split; auto. lia.
  - destruct (Hh err w (t ++ t1)%list) as (t2 & H4 & H5 & H6).
    exists (t1 ++ t2)%list. rewrite H4, app_assoc.
    repeat split; [now apply Forall_app|].
    rewrite length_app. lia.
Qed.

Lemma emits_if {A} n (b : bool) (m1 m2 : M A) :
  emits P n m1 -> emits P n m2 -> emits P n (if b then m1 else m2).
Proof. destruct b; auto. Qed.

Lemma emits_branch {A} n1 n2 (b : bool) (m1 m2 : M A) :
  emits P n1 m1 -> emits P n2 m2 ->
  emits P (Nat.max n1 n2) (if b then m1 else m2).
Proof.
  intros H1 H2. destruct b.
  - eapply emits_weaken; [apply Nat.le_max_l|exact H1].
  - eapply emits_weaken; [apply Nat.le_max_r|exact H2].
Qed.

Lemma emits_request_json req : emits P 0 (request_json req).
Proof.
  unfold request_json. destruct (json_body req);
    [apply emits_ret|apply emits_throw].
Qed.

Lemma emits_json_parse b : emits P 0 (json_parse b).
Proof.
  unfold json_parse. destruct (parsed b); [apply emits_ret|apply emits_throw].
Qed.

Lemma emits_find_prompt prompts function_id :
  emits P 0 (find_prompt prompts function_id).
Proof.
  destruct prompts; cbn [find_prompt];
    first [apply emits_lift|apply emits_throw].
Qed.

Lemma emits_encode_content rt content : emits P 0 (encode_content rt content).
Proof.
  unfold encode_content. destruct (btoa rt content);
    [apply emits_ret|apply emits_throw].
Qed.

Lemma emits_response_json r : emits P 0 (response_json r).
Proof.
  unfold response_json. destruct (content r);
    [apply emits_throw|apply emits_ret].
Qed.

Lemma emits_update_in_catch rt : emits P 0 (update_in_catch rt).
Proof.
  unfold update_in_catch. destruct (global_update rt);
    [apply emits_ret|apply emits_throw].
Qed.

End Emits.

(** One step of the count of the requests of a program. *)
Ltac emits_step :=
  first
    [ apply emits_ret | apply emits_throw | apply emits_lift
    | apply emits_request_json | apply emits_json_parse
    | apply emits_find_prompt | apply emits_encode_content
    | apply emits_response_json | apply emits_update_in_catch
    | eapply emits_bind; [|intros ?]
    | eapply emits_try; [|intros ?]
    | eapply emits_branch ].

Lemma emits_imp {A} (P Q : http_request -> Prop) n (m : M A) :
  (forall r, P r -> Q r) -> emits P n m -> emits Q n m.
Proof.
  intros HPQ H w t. destruct (H w t) as (t' & H1 & H2 & H3).
  exists t'. repeat split; auto.
  eapply Forall_impl; [|exact H2]. intros ev. apply HPQ.
Qed.

Lemma emits_fetchPrompts P owner repo path :
  P (metadata_request owner repo path) ->
  (forall dl, P (download_request dl)) ->
  emits P 2 (fetchPromptsFromGitHub owner repo path).
Proof.
  intros Hm Hd. eapply emits_weaken; cycle 1.
  - unfold fetchPromptsFromGitHub.
    repeat first [emits_step | apply emits_fetch; first [apply Hm|apply Hd]].
  - cbn. lia.
Qed.

Lemma emits_extract_text P json : emits P 0 (extract_text json).
Proof.
  eapply emits_weaken; cycle 1.
  - unfold extract_text. repeat emits_step.
  - cbn. lia.
Qed.

Lemma emits_callGeminiApi P tpl msg key :
  (forall prompt, P (gemini_request key prompt)) ->
  emits P 1 (callGeminiApi tpl msg key).
Proof.
  intros Hg. eapply emits_weaken; cycle 1.
  - unfold callGeminiApi.
    eapply emits_bind; [apply emits_lift|intros ?].
    eapply emits_bind; [apply emits_fetch, Hg|intros ?].
    eapply emits_branch; [apply emits_throw|].
    eapply emits_bind; [apply emits_json_parse|intros ?].
    apply emits_extract_text.
  - cbn. lia.
Qed.

Lemma emits_sendTelegramMessage P chatId text token :
  P (telegram_request chatId text token) ->
  emits P 1 (sendTelegramMessage chatId text token).
Proof.
  intros H. eapply emits_weaken; cycle 1.
  - unfold sendTelegramMessage.
    eapply emits_bind; [apply emits_fetch, H|intros ?]. apply emits_ret.
  - cbn. lia.
Qed.

Lemma emits_handleChat req e :
  emits (chat_request_kind e) 3 (handleChat req e).
Proof.
  eapply emits_weaken; cycle 1.
  - unfold handleChat.
    eapply emits_try; [|intros ?; apply emits_ret].
    do 3 (eapply emits_bind; [emits_step|intros ?]).
    eapply emits_branch; [apply emits_ret|].
    eapply emits_branch; [apply emits_ret|].
    eapply emits_bind;
      [apply emits_fetchPrompts; [apply KindMetadata|apply KindDownload]
      |intros ?].
    do 2 (eapply emits_bind; [emits_step|intros ?]).
    eapply emits_branch;
      [eapply emits_bind; [emits_step|intros ?]; apply emits_ret|].
    eapply emits_bind; [emits_step|intros ?].
    eapply emits_bind;
      [apply emits_callGeminiApi; apply KindCompletion|intros ?].
    apply emits_ret.
  - cbn. lia.
Qed.

Lemma emits_handleSavePrompts rt req e :
  emits (save_request_kind e) 3 (handleSavePrompts rt req e).
Proof.
  eapply emits_weaken; cycle 1.
  - unfold handleSavePrompts.
    eapply emits_branch; [apply emits_ret|].
    eapply emits_try; [|intros ?; apply emits_ret].
    eapply emits_bind; [emits_step|intros ?].
    eapply emits_bind;
      [apply emits_fetchPrompts; [apply SaveMetadata|apply SaveDownload]
      |intros ?].
    eapply emits_bind; [emits_step|intros ?].
    eapply emits_bind; [apply emits_fetch, SaveCommit|intros ?].
    eapply emits_branch; [apply emits_throw|apply emits_ret].
  - cbn. lia.
Qed.

Lemma emits_handleTelegramWebhook rt req e :
  emits (webhook_request_kind e) 5 (handleTelegramWebhook rt req e).
Proof.
  eapply emits_weaken; cycle 1.
  - unfold handleTelegramWebhook.
    eapply emits_branch; [apply emits_ret|].
    eapply emits_try.
    + do 2 (eapply emits_bind; [emits_step|intros ?]).
      eapply emits_branch; [apply emits_ret|].
      eapply emits_bind; [emits_step|intros ?].
      eapply emits_branch; [apply emits_ret|].
      do 3 (eapply emits_bind; [emits_step|intros ?]).
      eapply emits_bind;
        [eapply emits_imp; [apply WebhookChat|apply emits_handleChat]|intros ?].
      do 2 (eapply emits_bind; [emits_step|intros ?]).
      eapply emits_bind;
        [eapply emits_branch;
           [eapply emits_bind; [emits_step|intros ?]; apply emits_ret
           |apply emits_lift]
        |intros ?].
      eapply emits_bind;
        [apply emits_sendTelegramMessage, WebhookSend|intros ?].
      apply emits_ret.
    + intros err. unfold webhook_catch.
      eapply emits_bind; [emits_step|intros ?].
      eapply emits_bind; [|intros ?; apply emits_ret].
      eapply emits_branch; [|apply emits_ret].
      eapply emits_bind; [emits_step|intros ?].
      eapply emits_branch; [|apply emits_ret].
      eapply emits_bind; [emits_step|intros ?].
      eapply emits_branch; [|apply emits_ret].
      eapply emits_bind; [emits_step|intros ?].
      apply emits_sendTelegramMessage, WebhookSend.
  - cbn. lia.
Qed.

Lemma emits_run {A} P n (m : M A) w :
  emits P n m ->
  (List.length (snd (run m w)) <= n)%nat
  /\ Forall (fun ev => P (fst ev)) (snd (run m w)).
Proof.
  intros H. destruct (H w []) as (t' & Ht & Hall & Hlen).
  unfold run. rewrite Ht. cbn [app]. auto.
Qed.

(** Whatever the remote services answer, [handleChat] makes at most
    three requests, each of them the metadata read of the store, the
    download of the document, or the call of the completion backend. *)
Theorem chat_requests req e w :
  (List.length (snd (run (handleChat req e) w)) <= 3)%nat
  /\ Forall (fun ev => chat_request_kind e (fst ev))
       (snd (run (handleChat req e) w)).
Proof. apply emits_run, emits_handleChat. Qed.

(** Whatever the remote services answer, [handleSavePrompts] makes at
    most three requests, each of them the metadata read, the download,
    or the commit to the contents URL of the environment. *)
Theorem save_requests rt req e w :
  (List.length (snd (run (handleSavePrompts rt req e) w)) <= 3)%nat
  /\ Forall (fun ev => save_request_kind e (fst ev))
       (snd (run (handleSavePrompts rt req e) w)).
Proof. apply emits_run, emits_handleSavePrompts. Qed.

(** Whatever the remote services answer, [handleTelegramWebhook] makes
    at most five requests, each of them a request of [handleChat] or a
    message to Telegram with the bot token of the environment. *)
Theorem webhook_requests rt req e w :
  (List.length (snd (run (handleTelegramWebhook rt req e) w)) <= 5)%nat
  /\ Forall (fun ev => webhook_request_kind e (fst ev))
       (snd (run (handleTelegramWebhook rt req e) w)).
Proof. apply emits_run, emits_handleTelegramWebhook. Qed.

End TraceFacts.

(** ** More on the handlers *)

Module HandlerMore.
Import JS Net Worker Behaviour Samples WorkerFacts TraceFacts.

(** *** [fetchPromptsFromGitHub] *)

(** When [fetchPromptsFromGitHub] returns, it has made two requests,
    both answered with a status in 200-299: the metadata request, and
    a request to the [download_url] of the metadata; it returns the
    body of the second answer and the [sha] of the first. *)
Theorem fetch_prompts_success owner repo path w t content sha t' :
  fetchPromptsFromGitHub owner repo path w t = (Ok (content, sha), t') ->
  exists metaResp meta dl contentResp,
    t' = (t ++ [(metadata_request owner repo path, Resolved metaResp);
                (download_request dl, Resolved contentResp)])%list
    /\ ok metaResp = true /\ ok contentResp = true
    /\ parsed (payload metaResp) = Some meta
    /\ get meta "sha" = Ok sha
    /\ get meta "download_url" = Ok dl
    /\ content = payload contentResp.
Proof.
  intros H. pose proof (fetchPrompts_cases owner repo path w t) as Hc.
  rewrite H in Hc. cbn [fst snd] in Hc. inversion Hc; subst.
  exists metaResp, meta, dl, contentResp.
  rewrite <- app_assoc. repeat split; auto.
Qed.

Lemma fetch_prompts_success_witness :
  exists metaResp meta dl contentResp,
    [(metadata_request (Some "shop") (Some "assistant") (Some "prompts.json"),
      Resolved metadata_ok);
     (download_request (VStr raw_url), Resolved document_ab)]
    = ([] ++ [(metadata_request (Some "shop") (Some "assistant")
                 (Some "prompts.json"), Resolved metaResp);
              (download_request dl, Resolved contentResp)])%list
    /\ ok metaResp = true /\ ok contentResp = true
    /\ parsed (payload metaResp) = Some meta
    /\ get meta "sha" = Ok (VStr "T1")
    /\ get meta "download_url" = Ok dl
    /\ payload document_ab = payload contentResp.
Proof.
  apply (fetch_prompts_success (Some "shop") (Some "assistant")
           (Some "prompts.json")
           (scripted [Resolved metadata_ok; Resolved document_ab]) []).
  reflexivity.
Defined.

(** *** [callGeminiApi] *)

(** A template that is not a string makes [callGeminiApi] throw a
    [TypeError] before any request. *)
Theorem completion_needs_string_template tpl msg key w t :
  (forall s, tpl <> VStr s) ->
  exists text,
    callGeminiApi tpl msg key w t = (Throw (mkError TypeError text), t).
Proof.
  intros H. unfold callGeminiApi, bind, lift.
  destruct tpl; cbn [final_prompt]; try (eexists; reflexivity).
  now destruct (H s).
Qed.

Lemma completion_needs_string_template_witness :
  exists text,
    callGeminiApi VUndef (VStr "hi") (Some "gemini-key") (scripted []) []
    = (Throw (mkError TypeError text), []).
Proof.
  apply (completion_needs_string_template VUndef (VStr "hi")
           (Some "gemini-key") (scripted []) []).
  intros s. discriminate.
Defined.

(** When the completion backend answers with a status outside
    200-299, [callGeminiApi] throws an error whose message has the
    status and the body of the answer.  It has made one request: a
    [POST] to the model's URL with the key, whose body has the
    rendered prompt as the one text part of the one user content. *)
Theorem completion_upstream_error tpl msg key w t r :
  w t (gemini_request key (Template.render tpl msg)) = Resolved r ->
  ok r = false ->
  callGeminiApi (VStr tpl) (VStr msg) key w t
  = (Throw (mkError Error
              ("Gemini API error: " ++ string_of_Z (Net.status r)
                 ++ " - " ++ text (payload r))),
     (t ++ [(mkRequest "POST"
               (VStr ("https://generativelanguage.googleapis.com/v1beta/models/"
                        ++ "gemini-2.5-flash" ++ ":generateContent?key="
                        ++ interp key))
               [("Content-Type", "application/json")]
               (Some (VObj [("contents",
                  VArr [VObj [("role", VStr "user");
                              ("parts",
                               VArr [VObj [("text",
                                 VStr (Template.render tpl msg))]])]])])),
             Resolved r)])%list).
Proof.
  intros Hw Hok. unfold callGeminiApi, bind, lift, fetch.
  cbn [final_prompt to_string]. rewrite Hw, Hok. reflexivity.
Qed.

Lemma completion_upstream_error_witness :
  callGeminiApi (VStr "Recommend for {{user_preferences}}") (VStr "a hat")
    (Some "gemini-key") (scripted [Resolved completion_overloaded]) []
  = (Throw (mkError Error "Gemini API error: 503 - overloaded"),
     [(mkRequest "POST"
         (VStr ("https://generativelanguage.googleapis.com/v1beta/models/"
                  ++ "gemini-2.5-flash" ++ ":generateContent?key="
                  ++ "gemini-key"))
         [("Content-Type", "application/json")]
         (Some (VObj [("contents",
            VArr [VObj [("role", VStr "user");
                        ("parts",
                         VArr [VObj [("text",
                           VStr "Recommend for a hat")]])]])])),
       Resolved completion_overloaded)]).
Proof.
  apply (completion_upstream_error "Recommend for {{user_preferences}}"
           "a hat" (Some "gemini-key")
           (scripted [Resolved completion_overloaded]) []
           completion_overloaded);
    reflexivity.
Defined.

(** The answer of [callGeminiApi]: when the completion backend
    answers 200-299 with a body in which [candidates],
    [candidates[0]], its [content] and the [parts] of that are all
    truthy, the result is the [text] member of the first part.  It has
    made one request: a [POST] to the model's URL with the key, whose
    body has the rendered prompt as the one text part of the one user
    content. *)
Theorem completion_answer tpl msg key w t r json
    candidates first content parts part answer :
  w t (gemini_request key (Template.render tpl msg)) = Resolved r ->
  ok r = true ->
  parsed (payload r) = Some json ->
  get json "candidates" = Ok candidates -> truthy candidates = true ->
  index0 candidates = Ok first -> truthy first = true ->
  get first "content" = Ok content -> truthy content = true ->
  get content "parts" = Ok parts -> truthy parts = true ->
  index0 parts = Ok part ->
  get part "text" = Ok answer ->
  callGeminiApi (VStr tpl) (VStr msg) key w t
  = (Ok answer,
     (t ++ [(mkRequest "POST"
               (VStr ("https://generativelanguage.googleapis.com/v1beta/models/"
                        ++ "gemini-2.5-flash" ++ ":generateContent?key="
                        ++ interp key))
               [("Content-Type", "application/json")]
               (Some (VObj [("contents",
                  VArr [VObj [("role", VStr "user");
                              ("parts",
                               VArr [VObj [("text",
                                 VStr (Template.render tpl msg))]])]])])),
             Resolved r)])%list).
Proof.
  intros Hw Hok Hp H1 T1 H2 T2 H3 T3 H4 T4 H5 H6.
  unfold callGeminiApi, bind, lift, fetch. cbn [final_prompt to_string].
  rewrite Hw, Hok. cbn [negb]. unfold json_parse. rewrite Hp.
  unfold ret, extract_text, bind, lift.
  rewrite H1, T1, H2, T2, H3, T3, H4, T4, H5, H6. reflexivity.
Qed.

Lemma completion_answer_witness :
  callGeminiApi (VStr "Hello {{name}}") (VStr "World") (Some "gemini-key")
    (scripted [Resolved completion_hi]) []
  = (Ok (VStr "Hi"),
     [(mkRequest "POST"
         (VStr ("https://generativelanguage.googleapis.com/v1beta/models/"
                  ++ "gemini-2.5-flash" ++ ":generateContent?key="
                  ++ "gemini-key"))
         [("Content-Type", "application/json")]
         (Some (VObj [("contents",
            VArr [VObj [("role", VStr "user");
                        ("parts",
                         VArr [VObj [("text", VStr "Hello {{name}}")]])]])])),
       Resolved completion_hi)]).
Proof.
  apply (completion_answer "Hello {{name}}" "World"
           (Some "gemini-key") (scripted [Resolved completion_hi]) []
           completion_hi
           (VObj [("candidates",
              VArr [VObj [("content",
                VObj [("parts", VArr [VObj [("text", VStr "Hi")]])])]])])
           (VArr [VObj [("content",
                VObj [("parts", VArr [VObj [("text", VStr "Hi")]])])]])
           (VObj [("content",
                VObj [("parts", VArr [VObj [("text", VStr "Hi")]])])])
           (VObj [("parts", VArr [VObj [("text", VStr "Hi")]])])
           (VArr [VObj [("text", VStr "Hi")]])
           (VObj [("text", VStr "Hi")]) (VStr "Hi")); reflexivity.
Defined.

(** The fallback of [callGeminiApi]: for a parsed body other than
    [null], when [candidates], or [candidates[0]], or its [content],
    or the [parts] of that is missing or falsy, the extraction gives
    the fixed fallback message. *)
Theorem extract_text_fallback json w t :
  (exists candidates,
     get json "candidates" = Ok candidates
     /\ (truthy candidates = false
         \/ exists first,
              index0 candidates = Ok first
              /\ (truthy first = false
                  \/ exists content,
                       get first "content" = Ok content
                       /\ (truthy content = false
                           \/ exists parts,
                                get content "parts" = Ok parts
                                /\ truthy parts = false)))) ->
  extract_text json w t = (Ok (VStr fallback_message), t).
Proof.
  intros (cs & H1 & H). unfold extract_text, bind, lift. rewrite H1.
  destruct H as [->|(c0 & H2 & H)]; [reflexivity|].
  destruct (truthy cs); [|reflexivity]. rewrite H2.
  destruct H as [->|(ct & H3 & H)]; [reflexivity|].
  destruct (truthy c0); [|reflexivity]. rewrite H3.
  destruct H as [->|(ps & H4 & Hps)]; [reflexivity|].
  destruct (truthy ct); [|reflexivity]. now rewrite H4, Hps.
Qed.

Lemma extract_text_fallback_witness :
  extract_text (VObj [("candidates", VArr [VObj [("finishReason", VStr "SAFETY")]])])
    (scripted []) []
  = (Ok (VStr fallback_message), []).
Proof.
  apply (extract_text_fallback
           (VObj [("candidates", VArr [VObj [("finishReason", VStr "SAFETY")]])])
           (scripted []) []).
  eexists. split; [reflexivity|]. right.
  eexists. split; [reflexivity|]. right.
  eexists. split; [reflexivity|]. left. reflexivity.
Defined.

(** *** [handleChat] *)

(** [handleChat] never throws: it returns a response with status 200
    and a body [{response}], or with status 400, 404 or 500 and a body
    [{error}]. *)
Theorem chat_always_answers req e w t :
  exists resp,
    fst (handleChat req e w t) = Ok resp
    /\ ((status resp = 200%Z
         /\ exists v, content resp = Json (VObj [("response", v)]))
        \/ ((status resp = 400%Z \/ status resp = 404%Z
             \/ status resp = 500%Z)
            /\ exists msg, content resp = error_body msg)).
Proof.
  unfold handleChat, try_catch.
  match goal with
  | |- context [match ?body w t with _ => _ end] =>
      destruct (body w t) as [[resp|err] t1] eqn:E
  end.
  2:{ eexists. split; [reflexivity|]. right. split; [cbn; tauto|].
      eexists. reflexivity. }
  exists resp. split; [reflexivity|].
  apply bind_ok_inv in E as (parsed & t2 & _ & E).
  apply bind_ok_inv in E as (message & t3 & _ & E).
  apply bind_ok_inv in E as (function_id & t4 & _ & E).
  destruct (negb (truthy message) || negb (truthy function_id)).
  { apply ret_ok_inv in E as [<- _]. right. split; [cbn; tauto|].
    eexists. reflexivity. }
  destruct (negb (configured (GEMINI_API_KEY e))).
  { apply ret_ok_inv in E as [<- _]. right. split; [cbn; tauto|].
    eexists. reflexivity. }
  apply bind_ok_inv in E as (fetched & t5 & _ & E).
  apply bind_ok_inv in E as (prompts & t6 & _ & E).
  apply bind_ok_inv in E as (selected & t7 & _ & E).
  destruct (negb (truthy selected)).
  { apply bind_ok_inv in E as (name & t8 & _ & E).
    apply ret_ok_inv in E as [<- _]. right. split; [cbn; tauto|].
    eexists. reflexivity. }
  apply bind_ok_inv in E as (template & t8 & _ & E).
  apply bind_ok_inv in E as (answer & t9 & _ & E).
  apply ret_ok_inv in E as [<- _]. left. split; [reflexivity|].
  eexists. reflexivity.
Qed.

(** Without the completion key a valid chat request is answered 500
    with the configuration error, and no request is made. *)
Theorem chat_without_key req e w parsed message function_id :
  json_body req = Some parsed ->
  get parsed "message" = Ok message ->
  get parsed "function_id" = Ok function_id ->
  truthy message = true -> truthy function_id = true ->
  configured (GEMINI_API_KEY e) = false ->
  run (handleChat req e) w
  = (Ok (json_response 500
           [("error", VStr "GEMINI_API_KEY is not configured.")]), []).
Proof.
  intros Hb Hm Hf Htm Htf Hkey.
  unfold run, handleChat, try_catch, bind, request_json, lift.
  rewrite Hb. cbn [ret]. rewrite Hm, Hf, Htm, Htf, Hkey. reflexivity.
Qed.

Lemma chat_without_key_witness :
  run (handleChat (chat_request "World" "a")
         (mkEnv (Some "shop") (Some "assistant") (Some "prompts.json")
            (Some "ghp_pat") None (Some "bot-token")))
      (scripted [Resolved metadata_ok; Resolved document_ab])
  = (Ok (json_response 500
           [("error", VStr "GEMINI_API_KEY is not configured.")]), []).
Proof.
  apply (chat_without_key (chat_request "World" "a") _ _
           (VObj [("message", VStr "World"); ("function_id", VStr "a")])
           (VStr "World") (VStr "a")); reflexivity.
Defined.

(** A chat request whose body is not JSON, or is the JSON value
    [null], is answered 500, and no request is made. *)
Theorem chat_unreadable_body req e w :
  json_body req = None \/ json_body req = Some VNull ->
  exists msg,
    run (handleChat req e) w
    = (Ok (json_response 500
             [("error", VStr ("Internal Server Error during chat processing: "
                                ++ msg))]), []).
Proof.
  intros [H|H]; unfold run, handleChat, try_catch, bind, request_json, lift;
    rewrite H; eexists; reflexivity.
Qed.

Lemma chat_unreadable_body_witness :
  exists msg,
    run (handleChat (mkInbound None) sample_env) (scripted [])
    = (Ok (json_response 500
             [("error", VStr ("Internal Server Error during chat processing: "
                                ++ msg))]), []).
Proof.
  apply (chat_unreadable_body (mkInbound None) sample_env (scripted [])).
  left. reflexivity.
Defined.

Lemma find_first_match function_id before p after id :
  no_prompt_with function_id before ->
  get p "id" = Ok id -> strict_eq id function_id = true ->
  find_first
    (fun p => match get p "id" with
              | Ok id => Ok (strict_eq id function_id)
              | Throw e => Throw e
              end) (before ++ p :: after)
  = Ok p.
Proof.
  intros Hb Hid Heq. induction Hb as [|q before [Hn Hq] _ IH].
  - cbn [app find_first]. now rewrite Hid, Heq.
  - cbn [app find_first]. destruct (get q "id") as [qid|err] eqn:E.
    + now rewrite (Hq qid eq_refl).
    + destruct q; cbn in Hn, E; discriminate.
Qed.

Lemma matching_prompt_truthy p id function_id :
  get p "id" = Ok id -> strict_eq id function_id = true ->
  truthy function_id = true -> truthy p = true.
Proof.
  intros Hid Heq Ht.
  destruct p; cbn in Hid; try discriminate; try reflexivity;
    inversion Hid; subst; destruct function_id; discriminate.
Qed.

(** A valid chat request selects the first element of the document
    whose [id] is the [function_id], hands its [prompt] and the
    message to [callGeminiApi], and answers 200 with what that
    returns, or 500 with the message of what that throws. *)
Theorem chat_uses_first_match req e w parsed message function_id
    document sha t before p after id template :
  json_body req = Some parsed ->
  get parsed "message" = Ok message ->
  get parsed "function_id" = Ok function_id ->
  truthy message = true -> truthy function_id = true ->
  configured (GEMINI_API_KEY e) = true ->
  fetchPromptsFromGitHub (GITHUB_OWNER e) (GITHUB_REPO e) (PROMPTS_PATH e)
    w [] = (Ok (document, sha), t) ->
  Net.parsed document = Some (VArr (before ++ p :: after)) ->
  no_prompt_with function_id before ->
  get p "id" = Ok id -> strict_eq id function_id = true ->
  get p "prompt" = Ok template ->
  (forall answer t',
     callGeminiApi template message (GEMINI_API_KEY e) w t = (Ok answer, t') ->
     run (handleChat req e) w
     = (Ok (json_response 200 [("response", answer)]), t'))
  /\ (forall err t',
       callGeminiApi template message (GEMINI_API_KEY e) w t
       = (Throw err, t') ->
       run (handleChat req e) w
       = (Ok (json_response 500
                [("error", VStr ("Internal Server Error during chat processing: "
                                   ++ JS.message err))]), t')).
Proof.
  intros Hb Hm Hf Htm Htf Hkey Hfetch Hdoc Hnone Hid Heq Htpl.
  assert (Hp : truthy p = true)
    by (eapply matching_prompt_truthy; eauto).
  split; intros r t' Hg;
    unfold run, handleChat, try_catch, bind, request_json, lift;
    rewrite Hb; cbn [ret]; rewrite Hm, Hf, Htm, Htf, Hkey; cbn [negb orb];
    rewrite Hfetch; cbn [fst]; unfold json_parse; rewrite Hdoc;
    cbn [ret find_prompt]; unfold lift;
    rewrite (find_first_match _ _ _ _ _ Hnone Hid Heq), Hp; cbn [negb];
    rewrite Htpl, Hg; reflexivity.
Qed.

Lemma chat_uses_first_match_witness :
  run (handleChat (chat_request "World" "b") sample_env)
      (scripted [Resolved metadata_ok; Resolved document_ab;
                 Resolved completion_hi])
  = (Ok (json_response 200 [("response", VStr "Hi")]),
     [(metadata_request (Some "shop") (Some "assistant") (Some "prompts.json"),
       Resolved metadata_ok);
      (download_request (VStr raw_url), Resolved document_ab);
      (gemini_request (Some "gemini-key") "B таблица размеров",
       Resolved completion_hi)]).
Proof.
  edestruct (chat_uses_first_match (chat_request "World" "b") sample_env
           (scripted [Resolved metadata_ok; Resolved document_ab;
                      Resolved completion_hi])
           (VObj [("message", VStr "World"); ("function_id", VStr "b")])
           (VStr "World") (VStr "b") (payload document_ab) (VStr "T1")
           [(metadata_request (Some "shop") (Some "assistant")
               (Some "prompts.json"), Resolved metadata_ok);
            (download_request (VStr raw_url), Resolved document_ab)]
           [prompt "a" "A {{product_data}}"] (prompt "b" "B {{size_chart}}")
           [] (VStr "b") (VStr "B {{size_chart}}")) as [H _];
    lazymatch goal with
    | |- run _ _ = _ => apply H; vm_compute; reflexivity
    | |- no_prompt_with _ _ =>
        repeat constructor; intros id Hid; inversion Hid; reflexivity
    | |- _ => reflexivity
    end.
Defined.

(** *** [handleSavePrompts] *)

(** The request in [Hr] is a read of the store: it is no [PUT] and has
    no [Authorization] header. *)
Ltac not_a_commit Hr :=
  destruct Hr as [Hr|(? & Hr)]; cbn in Hr;
  [discriminate|repeat (destruct Hr as [Hr|Hr]; [discriminate|]); destruct Hr].

(** The only request of [handleSavePrompts] that is a [PUT], and the
    only one with an [Authorization] header, is the commit: it goes to
    the contents URL of the environment, and its content is the
    [btoa] of the pretty-printed body of the inbound request, whatever
    that body is. *)
Theorem save_commits_request_body rt req e w r res :
  In (r, res) (snd (run (handleSavePrompts rt req e) w)) ->
  method r = "PUT" \/ authorized r ->
  exists body encoded sha,
    json_body req = Some body
    /\ btoa rt (stringify_pretty rt body) = Some encoded
    /\ r = commit_request e encoded sha.
Proof.
  unfold run, handleSavePrompts. intros Hin Hr.
  destruct (configured (GITHUB_PAT e)); cbn [negb] in Hin.
  2:{ destruct Hin. }
  unfold try_catch, bind, request_json in Hin.
  destruct (json_body req) as [body|]; cbn [ret throw snd] in Hin.
  2:{ destruct Hin. }
  fetch_prompts_cases w (@nil event) e.
  1,2: cbn [snd] in Hin; trace_cases Hin; not_a_commit Hr.
  cbn [snd] in Hin. unfold encode_content in Hin.
  destruct (btoa rt (stringify_pretty rt body)) as [encoded|] eqn:Eb;
    cbn [ret throw snd] in Hin.
  2:{ trace_cases Hin; not_a_commit Hr. }
  unfold fetch in Hin. cbn [app] in Hin.
  match type of Hin with
  | context [w ?tr ?rq] => destruct (w tr rq) as [err|resp]
  end.
  - cbn [snd] in Hin. trace_cases Hin; try not_a_commit Hr.
    eexists _, _, _. repeat split; eauto.
  - destruct (ok resp); cbn [negb ret throw snd] in Hin;
      (trace_cases Hin; try not_a_commit Hr);
      eexists _, _, _; repeat split; eauto.
Qed.

Lemma save_commits_request_body_witness :
  exists body encoded sha,
    json_body (mkInbound (Some (VArr []))) = Some body
    /\ btoa sample_runtime (stringify_pretty sample_runtime body)
       = Some encoded
    /\ commit_request sample_env "W10=" (VStr "T1")
       = commit_request sample_env encoded sha.
Proof.
  apply (save_commits_request_body sample_runtime
           (mkInbound (Some (VArr []))) sample_env
           (scripted [Resolved metadata_ok; Resolved document_ab;
                      Resolved commit_accepted])
           (commit_request sample_env "W10=" (VStr "T1"))
           (Resolved commit_accepted)).
  - vm_compute. right. right. left. reflexivity.
  - left. reflexivity.
Defined.

(** A save request whose body is not JSON is answered 500, and no
    request is made: the store is neither read nor written. *)
Theorem save_unreadable_body rt req e w :
  configured (GITHUB_PAT e) = true ->
  json_body req = None ->
  exists msg,
    run (handleSavePrompts rt req e) w
    = (Ok (json_response 500
             [("error", VStr ("Internal Server Error during prompt saving: "
                                ++ msg))]), []).
Proof.
  intros Hpat Hb. unfold run, handleSavePrompts.
  rewrite Hpat. cbn [negb]. unfold try_catch, bind, request_json.
  rewrite Hb. eexists. reflexivity.
Qed.

Lemma save_unreadable_body_witness :
  exists msg,
    run (handleSavePrompts sample_runtime (mkInbound None) sample_env)
        (scripted [])
    = (Ok (json_response 500
             [("error", VStr ("Internal Server Error during prompt saving: "
                                ++ msg))]), []).
Proof.
  apply (save_unreadable_body sample_runtime (mkInbound None) sample_env
           (scripted [])); reflexivity.
Defined.

(** When the read of the store fails, the save is answered 500 with
    the message of that failure, and nothing is written: the trace is
    the trace of the read. *)
Theorem save_read_failure rt req e w body err t :
  configured (GITHUB_PAT e) = true ->
  json_body req = Some body ->
  fetchPromptsFromGitHub (GITHUB_OWNER e) (GITHUB_REPO e) (PROMPTS_PATH e)
    w [] = (Throw err, t) ->
  run (handleSavePrompts rt req e) w
  = (Ok (json_response 500
           [("error", VStr ("Internal Server Error during prompt saving: "
                              ++ JS.message err))]), t).
Proof.
  intros Hpat Hb Hf. unfold run, handleSavePrompts.
  rewrite Hpat. cbn [negb]. unfold try_catch, bind, request_json.
  rewrite Hb. cbn [ret]. rewrite Hf. reflexivity.
Qed.

Lemma save_read_failure_witness :
  run (handleSavePrompts sample_runtime (mkInbound (Some (VArr [])))
         sample_env)
      (scripted [Resolved metadata_missing])
  = (Ok (json_response 500
           [("error", VStr ("Internal Server Error during prompt saving: "
                              ++ "Failed to fetch prompts metadata from GitHub: Not Found"))]),
     [(metadata_request (Some "shop") (Some "assistant") (Some "prompts.json"),
       Resolved metadata_missing)]).
Proof.
  apply (save_read_failure sample_runtime (mkInbound (Some (VArr [])))
           sample_env (scripted [Resolved metadata_missing]) (VArr [])
           (mkError Error
              "Failed to fetch prompts metadata from GitHub: Not Found"));
    reflexivity.
Defined.

(** When [btoa] rejects the pretty-printed document (it has a
    character above U+00FF), the save is answered 500 after the read
    of the store, and nothing is written. *)
Theorem save_unencodable rt req e w body document sha t :
  configured (GITHUB_PAT e) = true ->
  json_body req = Some body ->
  fetchPromptsFromGitHub (GITHUB_OWNER e) (GITHUB_REPO e) (PROMPTS_PATH e)
    w [] = (Ok (document, sha), t) ->
  btoa rt (stringify_pretty rt body) = None ->
  exists msg,
    run (handleSavePrompts rt req e) w
    = (Ok (json_response 500
             [("error", VStr ("Internal Server Error during prompt saving: "
                                ++ msg))]), t).
Proof.
  intros Hpat Hb Hf He. unfold run, handleSavePrompts.
  rewrite Hpat. cbn [negb]. unfold try_catch, bind, request_json.
  rewrite Hb. cbn [ret]. rewrite Hf. unfold encode_content. rewrite He.
  eexists. reflexivity.
Qed.

Lemma save_unencodable_witness :
  exists msg,
    run (handleSavePrompts cyrillic_runtime
           (mkInbound (Some cyrillic_document)) sample_env)
        (scripted [Resolved metadata_ok; Resolved document_ab])
    = (Ok (json_response 500
             [("error", VStr ("Internal Server Error during prompt saving: "
                                ++ msg))]),
       [(metadata_request (Some "shop") (Some "assistant")
           (Some "prompts.json"), Resolved metadata_ok);
        (download_request (VStr raw_url), Resolved document_ab)]).
Proof.
  apply (save_unencodable cyrillic_runtime
           (mkInbound (Some cyrillic_document)) sample_env
           (scripted [Resolved metadata_ok; Resolved document_ab])
           cyrillic_document (payload document_ab) (VStr "T1")); reflexivity.
Defined.

(** *** [handleTelegramWebhook] *)

(** Without the bot token the webhook answers 500 with a plain text,
    whatever the update is, and makes no request. *)
Theorem webhook_without_token rt req e w :
  configured (TELEGRAM_BOT_TOKEN e) = false ->
  run (handleTelegramWebhook rt req e) w
  = (Ok (mkResp 500 (Text "TELEGRAM_BOT_TOKEN is not configured.")), []).
Proof.
  intros H. unfold run, handleTelegramWebhook. now rewrite H.
Qed.

Lemma webhook_without_token_witness :
  run (handleTelegramWebhook sample_runtime (update_text "hi")
         (mkEnv (Some "shop") (Some "assistant") (Some "prompts.json")
            (Some "ghp_pat") (Some "gemini-key") None))
      (scripted [])
  = (Ok (mkResp 500 (Text "TELEGRAM_BOT_TOKEN is not configured.")), []).
Proof.
  apply (webhook_without_token sample_runtime (update_text "hi")
           (mkEnv (Some "shop") (Some "assistant") (Some "prompts.json")
              (Some "ghp_pat") (Some "gemini-key") None)
           (scripted [])).
  reflexivity.
Defined.

Lemma reply_text chatResp text :
  webhook_reply chatResp text ->
  exists chatJson err,
    response_json chatResp = ret chatJson
    /\ get chatJson "error" = Ok err
    /\ (if truthy err
        then exists errorText,
               to_string err = Ok errorText
               /\ VStr ("Произошла ошибка: " ++ errorText) = text
        else get chatJson "response" = Ok text).
Proof.
  intros [st msg Hmsg|st answer].
  - eexists _, _. repeat split.
    cbn. destruct msg; [congruence|]. eexists. split; reflexivity.
  - destruct answer; eexists _, _; repeat split.
Qed.

(** For an update with a text message from a chat, the webhook asks
    [handleChat] for the function [product_recommendation] with the
    trimmed text, sends one message to the chat, and returns 200 [OK]:
    the message is the answer, or the error with a prefix.  The status
    Telegram answers with does not matter. *)
Theorem webhook_relays rt req e w update message s chat chatId
    chatResp t text r :
  configured (TELEGRAM_BOT_TOKEN e) = true ->
  json_body req = Some update ->
  get update "message" = Ok message -> truthy message = true ->
  get message "text" = Ok (VStr s) -> s <> EmptyString ->
  get message "chat" = Ok chat ->
  get chat "id" = Ok chatId ->
  handleChat (webhook_chat_request (trim rt s)) e w [] = (Ok chatResp, t) ->
  webhook_reply chatResp text ->
  w t (telegram_request chatId text (TELEGRAM_BOT_TOKEN e)) = Resolved r ->
  run (handleTelegramWebhook rt req e) w
  = (Ok (mkResp 200 (Text "OK")),
     (t ++ [(telegram_request chatId text (TELEGRAM_BOT_TOKEN e),
             Resolved r)])%list).
Proof.
  intros Htok Hb Hm Htm Htext Hs Hchat Hid Hc Hreply Hw.
  destruct (reply_text _ _ Hreply) as (chatJson & err & Hj & Herr & Ht).
  unfold run, handleTelegramWebhook. rewrite Htok. cbn [negb].
  unfold try_catch, bind, request_json, lift. rewrite Hb. cbn [ret].
  rewrite Hm, Htm. cbn [negb]. rewrite Htext.
  assert (Hts : truthy (VStr s) = true)
    by (cbn; destruct s; [congruence|reflexivity]).
  rewrite Hts. cbn [negb]. rewrite Hchat, Hid. cbn [trim_text].
  unfold webhook_chat_request in Hc. cbn [reparse] in Hc |- *.
  rewrite Hc, Hj. cbn [ret]. rewrite Herr.
  unfold sendTelegramMessage, bind, fetch.
  destruct (truthy err); cbn [ret].
  - destruct Ht as (errorText & He & <-). rewrite He. cbn [ret].
    rewrite Hw. reflexivity.
  - rewrite Ht, Hw. reflexivity.
Qed.

Lemma webhook_relays_witness :
  run (handleTelegramWebhook sample_runtime (update_text "a hat") sample_env)
      (scripted [Resolved metadata_ok; Resolved document_recommendation;
                 Resolved completion_hi; Resolved telegram_bad_request])
  = (Ok (mkResp 200 (Text "OK")),
     ([(metadata_request (Some "shop") (Some "assistant")
          (Some "prompts.json"), Resolved metadata_ok);
       (download_request (VStr raw_url), Resolved document_recommendation);
       (gemini_request (Some "gemini-key") "Recommend for a hat",
        Resolved completion_hi)]
      ++ [(telegram_request (VNum 7) (VStr "Hi") (Some "bot-token"),
           Resolved telegram_bad_request)])%list).
Proof.
  apply (webhook_relays sample_runtime (update_text "a hat") sample_env
           (scripted [Resolved metadata_ok; Resolved document_recommendation;
                      Resolved completion_hi; Resolved telegram_bad_request])
           (VObj [("message",
              VObj [("chat", VObj [("id", VNum 7)]); ("text", VStr "a hat")])])
           (VObj [("chat", VObj [("id", VNum 7)]); ("text", VStr "a hat")])
           "a hat" (VObj [("id", VNum 7)]) (VNum 7)
           (json_response 200 [("response", VStr "Hi")]));
    try reflexivity.
  - discriminate.
  - apply (ReplyAnswer 200 (VStr "Hi")).
Defined.

(** A text of white space only is trimmed to the empty string, which
    [handleChat] refuses before any request: the chat gets the
    validation error, and neither the store nor the completion backend
    is called. *)
Theorem webhook_blank_text rt req e w update message s chat chatId r :
  configured (TELEGRAM_BOT_TOKEN e) = true ->
  json_body req = Some update ->
  get update "message" = Ok message -> truthy message = true ->
  get message "text" = Ok (VStr s) -> s <> EmptyString ->
  trim rt s = EmptyString ->
  get message "chat" = Ok chat ->
  get chat "id" = Ok chatId ->
  w [] (telegram_request chatId
          (VStr "Произошла ошибка: Missing 'message' or 'function_id'")
          (TELEGRAM_BOT_TOKEN e)) = Resolved r ->
  run (handleTelegramWebhook rt req e) w
  = (Ok (mkResp 200 (Text "OK")),
     [(telegram_request chatId
         (VStr "Произошла ошибка: Missing 'message' or 'function_id'")
         (TELEGRAM_BOT_TOKEN e), Resolved r)]).
Proof.
  intros Htok Hb Hm Htm Htext Hs Htrim Hchat Hid Hw.
  unfold run, handleTelegramWebhook. rewrite Htok. cbn [negb].
  unfold try_catch, bind, request_json, lift. rewrite Hb. cbn [ret].
  rewrite Hm, Htm. cbn [negb]. rewrite Htext.
  assert (Hts : truthy (VStr s) = true)
    by (cbn; destruct s; [congruence|reflexivity]).
  rewrite Hts. cbn [negb]. rewrite Hchat, Hid. cbn [trim_text].
  rewrite Htrim. cbn. unfold fetch. rewrite Hw. reflexivity.
Qed.

Lemma webhook_blank_text_witness :
  run (handleTelegramWebhook
         blank_runtime
         (update_text "   ") sample_env)
      (scripted [Resolved telegram_ok])
  = (Ok (mkResp 200 (Text "OK")),
     [(telegram_request (VNum 7)
         (VStr "Произошла ошибка: Missing 'message' or 'function_id'")
         (Some "bot-token"), Resolved telegram_ok)]).
Proof.
  apply (webhook_blank_text
           blank_runtime
           (update_text "   ") sample_env
           (scripted [Resolved telegram_ok])
           (VObj [("message",
              VObj [("chat", VObj [("id", VNum 7)]); ("text", VStr "   ")])])
           (VObj [("chat", VObj [("id", VNum 7)]); ("text", VStr "   ")])
           "   " (VObj [("id", VNum 7)]) (VNum 7));
    try reflexivity.
  discriminate.
Defined.

(** *** What the handlers never send *)

Lemma chat_kind_is_read_or_completion e r :
  chat_request_kind e r -> method r <> "PUT" /\ ~ authorized r.
Proof.
  intros [|dl|prompt]; (split; [discriminate|]);
    intros (v & Hin); cbn in Hin;
    repeat (destruct Hin as [Hin|Hin]; [discriminate|]); destruct Hin.
Qed.

(** No request of [handleChat] or of [handleTelegramWebhook] is a
    [PUT] or has an [Authorization] header: the chat path and the
    webhook never write to the store and never send the write
    credential. *)
Theorem chat_and_webhook_send_no_credential rt req e w r res :
  In (r, res) (snd (run (handleChat req e) w))
  \/ In (r, res) (snd (run (handleTelegramWebhook rt req e) w)) ->
  method r <> "PUT" /\ ~ authorized r.
Proof.
  intros [Hin|Hin].
  - destruct (emits_handleChat req e w []) as (t' & Ht & Hall & _).
    unfold run in Hin. rewrite Ht in Hin. cbn [app] in Hin.
    rewrite Forall_forall in Hall.
    apply (chat_kind_is_read_or_completion e), (Hall _ Hin).
  - destruct (emits_handleTelegramWebhook rt req e w []) as (t' & Ht & Hall & _).
    unfold run in Hin. rewrite Ht in Hin. cbn [app] in Hin.
    rewrite Forall_forall in Hall. specialize (Hall _ Hin).
    cbn [fst] in Hall. destruct Hall as [r Hk|chatId text].
    + now apply (chat_kind_is_read_or_completion e).
    + split; [discriminate|].
      intros (v & Hv); cbn in Hv;
        repeat (destruct Hv as [Hv|Hv]; [discriminate|]); destruct Hv.
Qed.

Lemma chat_and_webhook_send_no_credential_witness :
  method (gemini_request (Some "gemini-key") "Hello {{name}}") <> "PUT"
  /\ ~ authorized (gemini_request (Some "gemini-key") "Hello {{name}}").
Proof.
  apply (chat_and_webhook_send_no_credential sample_runtime
           (chat_request "World" "greet") sample_env
           (scripted [Resolved metadata_ok; Resolved document_greet;
                      Resolved completion_hi])
           (gemini_request (Some "gemini-key") "Hello {{name}}")
           (Resolved completion_hi)).
  left. vm_compute. right. right. left. reflexivity.
Defined.

End HandlerMore.

(** ** The router *)

Module RouterFacts.
Import JS Net Worker Main Behaviour Samples WorkerFacts.

Lemma handleChat_returns req e w t :
  exists resp, fst (handleChat req e w t) = Ok resp.
Proof.
  unfold handleChat, try_catch.
  match goal with
  | |- context [match ?body w t with _ => _ end] =>
      destruct (body w t) as [[resp|err] t1]
  end; eexists; reflexivity.
Qed.

Lemma handleSavePrompts_returns rt req e w t :
  exists resp, fst (handleSavePrompts rt req e w t) = Ok resp.
Proof.
  unfold handleSavePrompts.
  destruct (configured (GITHUB_PAT e)); cbn [negb];
    [|eexists; reflexivity].
  unfold try_catch.
  match goal with
  | |- context [match ?body w t with _ => _ end] =>
      destruct (body w t) as [[resp|err] t1]
  end; eexists; reflexivity.
Qed.

(** Unless the request is a [POST] to one of the three routes, the
    router makes no request to any remote service and answers 200 with
    a header that allows every origin: this covers every [OPTIONS]
    preflight, on every path, and every [GET]. *)
Theorem router_idle rt request e w :
  routed_post request = false ->
  exists hs body,
    run (Main.fetch rt request e) w = (Ok (Built 200 hs body), [])
    /\ In ("Access-Control-Allow-Origin", "*") hs.
Proof.
  unfold routed_post, run, Main.fetch. intros H.
  destruct (String.eqb (in_method request) "OPTIONS").
  { eexists _, _. split; [reflexivity|]. cbn. tauto. }
  destruct (String.eqb (in_method request) "POST");
    cbn [andb] in H |- *.
  - apply orb_false_elim in H as [H H3]. apply orb_false_elim in H as [H1 H2].
    rewrite H1, H2, H3. cbn [andb].
    eexists _, _. split; [reflexivity|]. cbn. tauto.
  - rewrite !andb_false_r.
    eexists _, _. split; [reflexivity|]. cbn. tauto.
Qed.

Lemma router_idle_witness :
  exists hs body,
    run (Main.fetch sample_runtime
           (mkIn "OPTIONS" "/api/save-prompts" (mkInbound None)) sample_env)
        (scripted [])
    = (Ok (Built 200 hs body), [])
    /\ In ("Access-Control-Allow-Origin", "*") hs.
Proof.
  apply (router_idle sample_runtime
           (mkIn "OPTIONS" "/api/save-prompts" (mkInbound None)) sample_env
           (scripted [])).
  reflexivity.
Defined.

(** On every route but the webhook the router never throws: it
    returns a response of its own, which has the header that allows
    every origin. *)
Theorem router_answers_with_cors rt request e w :
  in_method request <> "POST" \/ pathname request <> "/telegram-webhook" ->
  exists st hs body,
    fst (run (Main.fetch rt request e) w) = Ok (Built st hs body)
    /\ In ("Access-Control-Allow-Origin", "*") hs.
Proof.
  intros H. unfold run, Main.fetch.
  destruct (String.eqb (in_method request) "OPTIONS").
  { eexists _, _, _. split; [reflexivity|]. cbn. tauto. }
  destruct (String.eqb (pathname request) "/api/chat"
            && String.eqb (in_method request) "POST").
  { unfold bind.
    destruct (handleChat_returns (inner request) e w []) as (resp & Hr).
    destruct (handleChat (inner request) e w []) as [o t1].
    cbn [fst] in Hr. subst o.
    eexists _, _, _. split; [reflexivity|]. cbn. tauto. }
  destruct (String.eqb (pathname request) "/api/save-prompts"
            && String.eqb (in_method request) "POST").
  { unfold bind.
    destruct (handleSavePrompts_returns rt (inner request) e w [])
      as (resp & Hr).
    destruct (handleSavePrompts rt (inner request) e w []) as [o t1].
    cbn [fst] in Hr. subst o.
    eexists _, _, _. split; [reflexivity|]. cbn. tauto. }
  destruct (String.eqb_spec (pathname request) "/telegram-webhook") as [Hp|Hp];
    destruct (String.eqb_spec (in_method request) "POST") as [Hm|Hm];
    cbn [andb]; try (eexists _, _, _; split; [reflexivity|]; cbn; tauto).
  destruct H; contradiction.
Qed.

Lemma router_answers_with_cors_witness :
  exists st hs body,
    fst (run (Main.fetch sample_runtime
                (mkIn "POST" "/api/chat" null_request) sample_env)
           (scripted []))
    = Ok (Built st hs body)
    /\ In ("Access-Control-Allow-Origin", "*") hs.
Proof.
  apply (router_answers_with_cors sample_runtime
           (mkIn "POST" "/api/chat" null_request) sample_env (scripted [])).
  right. discriminate.
Defined.

(** On the webhook route the router hands on what the handler does:
    with the bot token configured and no global [update], it returns
    the handler's 200 [OK] or throws the [ReferenceError] of the
    [catch] block; it never answers 500 [Error]. *)
Theorem router_webhook rt request e w :
  in_method request = "POST" ->
  pathname request = "/telegram-webhook" ->
  configured (TELEGRAM_BOT_TOKEN e) = true ->
  global_update rt = None ->
  fst (run (Main.fetch rt request e) w) = Ok (Passed (mkResp 200 (Text "OK")))
  \/ fst (run (Main.fetch rt request e) w)
     = Throw (mkError ReferenceError "update is not defined").
Proof.
  intros Hm Hp Htok Hg. unfold run, Main.fetch. rewrite Hm, Hp. cbn.
  unfold bind.
  destruct (webhook_never_reports_failure rt (inner request) e w Htok Hg)
    as [H|H]; unfold run in H;
    destruct (handleTelegramWebhook rt (inner request) e w []) as [o t1];
    cbn [fst] in H; subst o; [left|right]; reflexivity.
Qed.

Lemma router_webhook_witness :
  fst (run (Main.fetch sample_runtime
              (mkIn "POST" "/telegram-webhook" update_bad_text) sample_env)
         (scripted []))
  = Ok (Passed (mkResp 200 (Text "OK")))
  \/ fst (run (Main.fetch sample_runtime
                 (mkIn "POST" "/telegram-webhook" update_bad_text) sample_env)
            (scripted []))
     = Throw (mkError ReferenceError "update is not defined").
Proof.
  apply (router_webhook sample_runtime
           (mkIn "POST" "/telegram-webhook" update_bad_text) sample_env
           (scripted [])); reflexivity.
Defined.

End RouterFacts.
